(** * Hook script wrapper of the agent bootstrap (bootstrap/hook.go)

    A shallow embedding of [hookScriptWrapper]: the constructor
    [newHookScriptWrapper], the methods [Path], [Close] and
    [ChangedEnvironment], the two script dialects the constructor writes,
    and a reader of the shell fragment those scripts are written in.

    The Go code acts on the file system.  Here a [World] holds the disk, the
    open descriptors and the trace of the calls made so far; every function
    of hook.go is a function from worlds to outcomes, written in a small
    state monad with Go's nil-dereference panic as its failure.  What the
    platform decides (which temporary file can be created, how much of a
    write reaches the file, whether a path can be made absolute, made
    executable, removed or read, and how a dump decodes) is a field of a [Host], so each theorem holds for all hosts. *)

From Stdlib Require Import Ascii DecimalString DecimalNat.
From stdpp Require Import base gmap sets list strings.

(** ** Files, the disk and the trace of calls *)

(** What the Go code can observe of an os.File: its name and its
    descriptor. *)
Record File := mkFile { Name : string; fd : nat }.

(** A file on disk: its bytes and its execute permission. *)
Record inode := mkInode { content : string; executable : bool }.

(** Go's [error] values that can flow through this file.  The two wrapping
    constructors stand for the two [fmt.Errorf] calls of hook.go. *)
Inductive error :=
| ErrTempFile (filename : string)
| ErrAbs (path : string)
| ErrChmod (path : string)
| ErrReadFile (path : string)
| ErrBadFile (path : string)
| ErrShortWrite (path : string)
| ErrRemove (path : string)
| Errorf_AbsolutePath (hookPath : string) (cause : error)
| Errorf_Read (path : string) (cause : error).

(** Every call that leaves the process, in the order it is made. *)
Inductive event :=
| EvTempFile (filename : string) (created : option string)
| EvWrite (path : string) (data : string)
| EvClose (path : string)
| EvAbs (path : string)
| EvChmod (path : string)
| EvRemove (path : string)
| EvReadFile (path : string).

Record World := mkWorld {
  disk : gmap string inode;
  open_fds : list nat;
  trace : list event
}.

Global Instance error_eq_dec : EqDecision error.
Proof. solve_decision. Defined.
Global Instance event_eq_dec : EqDecision event.
Proof. solve_decision. Defined.
Global Instance inode_eq_dec : EqDecision inode.
Proof. solve_decision. Defined.
Global Instance File_eq_dec : EqDecision File.
Proof. solve_decision. Defined.

(** The platform and the collaborators hook.go calls but does not define.
    Each is a field, so that a theorem about the wrapper holds for every
    behaviour of the platform. *)
Record Host := mkHost {
  (** [runtime.GOOS] *)
  GOOS : string;
  (** [normalizeScriptFileName]: platform extension of the script file *)
  normalizeScriptFileName : string -> string;
  (** the name [shell.TempFileWithExtension] picks for a file name, or
      [None] when it cannot create one *)
  temp_path : World -> string -> option string;
  (** [filepath.Abs] *)
  Abs : string -> option string;
  (** whether [addExecutePermissiontoFile] succeeds on a path *)
  chmod_ok : string -> bool;
  (** whether [os.Remove] is allowed to unlink a path *)
  removable : string -> bool;
  (** whether [ioutil.ReadFile] is allowed to read a path *)
  readable : string -> bool;
  (** how many bytes of one write to a path the file system takes, [None]
      for all of them: a full disk, a quota or a file-size limit make it
      fewer than the caller hands over *)
  write_room : string -> option nat;
  (** [env.FromExport]: the decoder of a dump, a total function of its
      text *)
  FromExport : string -> gmap string string
}.

(** ** State and panics *)

(** A call either returns a value in a new world or panics (a nil
    dereference in Go). *)
Inductive outcome (A : Type) :=
| Done (a : A) (w : World)
| Panic.
Arguments Done {A} a w.
Arguments Panic {A}.

Definition M (A : Type) : Type := World -> outcome A.

Definition ret {A} (a : A) : M A := fun w => Done a w.

Definition bind {A B} (c : M A) (k : A -> M B) : M B :=
  fun w => match c w with
           | Done a w' => k a w'
           | Panic => Panic
           end.

Definition panic {A} : M A := fun _ => Panic.

Definition emit (e : event) : M unit :=
  fun w => Done tt (mkWorld (disk w) (open_fds w) (trace w ++ [e])).

Declare Scope go_scope.
Delimit Scope go_scope with go.
Notation "'let*' x ':=' c 'in' k" := (bind c (fun x => k))
  (at level 10, x pattern, c at level 100, k at level 200) : go_scope.
Notation "c ;;; k" := (bind c (fun _ => k))
  (at level 100, right associativity) : go_scope.
Local Open Scope go_scope.

(** ** The operating system calls *)

Definition fresh_fd (fds : list nat) : nat := S (max_list fds).

(** Modelled from the spec: [shell.TempFileWithExtension] is not in
    bootstrap/hook.go.  The spec asks for a uniquely named, collision-free
    temporary file: the name the host picks must not exist yet; the file is
    created empty and returned open. *)
Definition TempFileWithExtension (host : Host) (filename : string)
  : M (option File * option error) :=
  fun w =>
    match temp_path host w filename with
    | None =>
        (emit (EvTempFile filename None) ;;;
         ret (None, Some (ErrTempFile filename))) w
    | Some p =>
        match disk w !! p with
        | Some _ =>
            (emit (EvTempFile filename None) ;;;
             ret (None, Some (ErrTempFile filename))) w
        | None =>
            let f := mkFile p (fresh_fd (open_fds w)) in
            (emit (EvTempFile filename (Some p)) ;;;
             ret (Some f, None))
              (mkWorld (<[p := mkInode "" false]> (disk w))
                       (fd f :: open_fds w) (trace w))
        end
    end.

(** [Name] of an os.File pointer panics on a nil file. *)
Definition file_name (f : option File) : M string :=
  match f with
  | Some f => ret (Name f)
  | None => panic
  end.

(** [Close] of an os.File pointer: on a nil file Go returns [ErrInvalid],
    it does not panic. *)
Definition file_Close (f : option File) : M (option error) :=
  match f with
  | None => ret (Some (ErrBadFile ""))
  | Some f =>
      emit (EvClose (Name f)) ;;;
      fun w =>
        if decide (fd f ∈ open_fds w)
        then Done None (mkWorld (disk w)
                                (filter (fun n => n ≠ fd f) (open_fds w))
                                (trace w))
        else Done (Some (ErrBadFile (Name f))) w
  end.

(** The bytes of [s] that reach the file when [s] is written to [path]:
    all of [s], or the first [n] of them when the file system has room for
    [n] only. *)
Definition accepted (host : Host) (path s : string) : string :=
  match write_room host path with
  | Some n => String.substring 0 n s
  | None => s
  end.

(** [WriteString] of an os.File pointer: appends to the file behind an open
    descriptor.  It fails on a nil or closed file and on a file that is
    gone, and it fails after a short write, with the bytes the file system
    took left in the file.  The constructor drops its result. *)
Definition file_WriteString (host : Host) (f : option File) (s : string)
  : M (option error) :=
  match f with
  | None => ret (Some (ErrBadFile ""))
  | Some f =>
      emit (EvWrite (Name f) s) ;;;
      fun w =>
        if decide (fd f ∈ open_fds w)
        then match disk w !! Name f with
             | Some i =>
                 Done (if decide (accepted host (Name f) s = s)
                       then None else Some (ErrShortWrite (Name f)))
                      (mkWorld (<[Name f := mkInode
                                    (content i +:+ accepted host (Name f) s)
                                    (executable i)]> (disk w))
                               (open_fds w) (trace w))
             | None => Done (Some (ErrBadFile (Name f))) w
             end
        else Done (Some (ErrBadFile (Name f))) w
  end.

(** [filepath.Abs] *)
Definition filepath_Abs (host : Host) (path : string)
  : M (string * option error) :=
  emit (EvAbs path) ;;;
  match Abs host path with
  | Some p => ret (p, None)
  | None => ret ("", Some (ErrAbs path))
  end.

(** Modelled from the spec: [addExecutePermissiontoFile] is not in
    bootstrap/hook.go.  The spec describes it as the collaborator that sets
    the execute permission of a file path. *)
Definition addExecutePermissiontoFile (host : Host) (path : string)
  : M (option error) :=
  emit (EvChmod path) ;;;
  fun w =>
    match disk w !! path with
    | Some i =>
        if chmod_ok host path
        then Done None (mkWorld (<[path := mkInode (content i) true]> (disk w))
                                (open_fds w) (trace w))
        else Done (Some (ErrChmod path)) w
    | None => Done (Some (ErrChmod path)) w
    end.

(** [os.Remove] *)
Definition os_Remove (host : Host) (path : string) : M (option error) :=
  emit (EvRemove path) ;;;
  fun w =>
    match disk w !! path with
    | Some _ =>
        if removable host path
        then Done None (mkWorld (delete path (disk w)) (open_fds w) (trace w))
        else Done (Some (ErrRemove path)) w
    | None => Done (Some (ErrRemove path)) w
    end.

(** [ioutil.ReadFile] *)
Definition ioutil_ReadFile (host : Host) (path : string)
  : M (string * option error) :=
  emit (EvReadFile path) ;;;
  fun w =>
    match disk w !! path with
    | Some i =>
        if readable host path
        then Done (content i, None) w
        else Done ("", Some (ErrReadFile path)) w
    | None => Done ("", Some (ErrReadFile path)) w
    end.

(** ** The wrapper script *)

(** The variable that carries the hook's exit status through the script. *)
Definition BUILDKITE_LAST_HOOK_EXIT_STATUS : string :=
  "BUILDKITE_LAST_HOOK_EXIT_STATUS".

Definition LF : string := String "010"%char "".
Definition DQ : string := String "034"%char "".

(** The [runtime.GOOS == "windows"] branch of the constructor. *)
Definition windows_script (beforeEnv absolutePathToHook afterEnv : string)
  : string :=
  "@echo off" +:+ LF +:+
  "SETLOCAL ENABLEDELAYEDEXPANSION" +:+ LF +:+
  "SET > " +:+ DQ +:+ beforeEnv +:+ DQ +:+ LF +:+
  "CALL " +:+ DQ +:+ absolutePathToHook +:+ DQ +:+ LF +:+
  "SET BUILDKITE_LAST_HOOK_EXIT_STATUS=!ERRORLEVEL!" +:+ LF +:+
  "SET > " +:+ DQ +:+ afterEnv +:+ DQ +:+ LF +:+
  "EXIT %BUILDKITE_LAST_HOOK_EXIT_STATUS%".

(** The [else] branch of the constructor. *)
Definition posix_script (beforeEnv absolutePathToHook afterEnv : string)
  : string :=
  "#!/bin/bash" +:+ LF +:+
  "export -p > " +:+ DQ +:+ beforeEnv +:+ DQ +:+ LF +:+
  ". " +:+ DQ +:+ absolutePathToHook +:+ DQ +:+ LF +:+
  "BUILDKITE_LAST_HOOK_EXIT_STATUS=$?" +:+ LF +:+
  "export -p > " +:+ DQ +:+ afterEnv +:+ DQ +:+ LF +:+
  "exit $BUILDKITE_LAST_HOOK_EXIT_STATUS".

Definition hook_runner_script (goos beforeEnv absolutePathToHook afterEnv
  : string) : string :=
  if decide (goos = "windows")
  then windows_script beforeEnv absolutePathToHook afterEnv
  else posix_script beforeEnv absolutePathToHook afterEnv.

(** ** hookScriptWrapper *)

Record hookScriptWrapper := mkWrapper {
  hookPath : string;
  scriptFile : option File;
  beforeEnvFile : option File;
  afterEnvFile : option File
}.

(** The pair a Go function returns for a hookScriptWrapper pointer and an
    [error]. *)
Definition result : Type := option hookScriptWrapper * option error.

Definition newHookScriptWrapper (host : Host) (hookPath : string)
  : M result :=
  let h := mkWrapper hookPath None None None in
  let* (f, err) := TempFileWithExtension host
     (normalizeScriptFileName host "buildkite-agent-bootstrap-hook-runner") in
  let h := mkWrapper hookPath f (beforeEnvFile h) (afterEnvFile h) in
  match err with
  | Some e => ret (None, Some e)
  | None =>
  let* (f, err) := TempFileWithExtension host
     "buildkite-agent-bootstrap-hook-env-before" in
  let h := mkWrapper hookPath (scriptFile h) f (afterEnvFile h) in
  match err with
  | Some e => ret (None, Some e)
  | None =>
  file_Close (beforeEnvFile h) ;;;
  let* (f, err) := TempFileWithExtension host
     "buildkite-agent-bootstrap-hook-env-after" in
  let h := mkWrapper hookPath (scriptFile h) (beforeEnvFile h) f in
  match err with
  | Some e => ret (None, Some e)
  | None =>
  file_Close (afterEnvFile h) ;;;
  let* (absolutePathToHook, err) := filepath_Abs host hookPath in
  match err with
  | Some e => ret (None, Some (Errorf_AbsolutePath hookPath e))
  | None =>
  let* beforeName := file_name (beforeEnvFile h) in
  let* afterName := file_name (afterEnvFile h) in
  let script :=
    hook_runner_script (GOOS host) beforeName absolutePathToHook afterName in
  file_WriteString host (scriptFile h) script ;;;
  file_Close (scriptFile h) ;;;
  let* scriptName := file_name (scriptFile h) in
  let* err := addExecutePermissiontoFile host scriptName in
  match err with
  | Some e => ret (Some h, Some e)
  | None => ret (Some h, None)
  end end end end end.

(** [Path] returns the path of the wrapper script. *)
Definition Path (h : hookScriptWrapper) : M string :=
  file_name (scriptFile h).

(** [Close] removes the script and the two dump files; the three results of
    [os.Remove] are dropped. *)
Definition Close (host : Host) (h : hookScriptWrapper) : M unit :=
  let* n := file_name (scriptFile h) in
  os_Remove host n ;;;
  let* n := file_name (beforeEnvFile h) in
  os_Remove host n ;;;
  let* n := file_name (afterEnvFile h) in
  os_Remove host n ;;;
  ret tt.

(** ** Environments *)

Abbreviation Environment := (gmap string string).

(** Modelled from the spec: the [Remove] method of [env.Environment] is not
    in bootstrap/hook.go.  The spec only says that the sentinel name is
    excluded; the method drops the name and hands back its old value. *)
Definition Remove (key : string) (e : Environment) : string * Environment :=
  (default "" (e !! key), delete key e).

(** Modelled from the spec: the [Diff] method of [env.Environment] is not in
    bootstrap/hook.go.  The spec: for every name present in the receiver, if
    it is absent from the other snapshot, or present there with a different
    value, the result maps the name to the receiver's value; comparison is
    exact string equality. *)
Definition Diff (e other : Environment) : Environment :=
  map_imap (fun key value =>
              match other !! key with
              | None => Some value
              | Some otherValue =>
                  if decide (otherValue = value) then None else Some value
              end) e.

(** [ChangedEnvironment] returns the variables exported during the hook
    run. *)
Definition ChangedEnvironment (host : Host) (h : hookScriptWrapper)
  : M (option Environment * option error) :=
  let* beforeName := file_name (beforeEnvFile h) in
  let* (beforeEnvContents, err) := ioutil_ReadFile host beforeName in
  match err with
  | Some e => ret (None, Some (Errorf_Read beforeName e))
  | None =>
  let* afterName := file_name (afterEnvFile h) in
  let* (afterEnvContents, err) := ioutil_ReadFile host afterName in
  match err with
  | Some e => ret (None, Some (Errorf_Read afterName e))
  | None =>
  let beforeEnv := FromExport host beforeEnvContents in
  let afterEnv := FromExport host afterEnvContents in
  let afterEnv := snd (Remove BUILDKITE_LAST_HOOK_EXIT_STATUS afterEnv) in
  ret (Some (Diff afterEnv beforeEnv), None)
  end end.

(** ** The shell fragment of the wrapper script *)

(** The constructor only writes text.  What bash or cmd.exe do with that
    text, and with the hook sourced into the same shell, is decided by the
    interpreter and is not modelled.  The text itself can be read: the
    fragment of bash and of cmd.exe the two texts are written in gets a
    reader ([parse_script]) here, for environment dumps redirected to a
    quoted path, a hook sourced or called by a quoted path, the status of
    the last command copied into a variable, and an exit with the value of a
    variable. *)

(** The two script dialects and the steps a wrapper script is made of. *)
Inductive dialect := Posix | Windows.

Inductive command :=
| DumpEnv (path : string)
| SourceHook (path : string)
| CaptureStatus (var : string)
| ExitWith (var : string).

Global Instance dialect_eq_dec : EqDecision dialect.
Proof. solve_decision. Defined.
Global Instance command_eq_dec : EqDecision command.
Proof. solve_decision. Defined.

Definition dialect_of (goos : string) : dialect :=
  if decide (goos = "windows") then Windows else Posix.

(** The five steps the spec asks of a wrapper script, in its order. *)
Definition wrapper_steps (beforeEnv absolutePathToHook afterEnv : string)
  : list command :=
  [ DumpEnv beforeEnv;
    SourceHook absolutePathToHook;
    CaptureStatus BUILDKITE_LAST_HOOK_EXIT_STATUS;
    DumpEnv afterEnv;
    ExitWith BUILDKITE_LAST_HOOK_EXIT_STATUS ].

(** *** Writing steps as text *)

Definition render_command (d : dialect) (c : command) : string :=
  match d, c with
  | Posix, DumpEnv p => "export -p > " +:+ DQ +:+ p +:+ DQ
  | Posix, SourceHook p => ". " +:+ DQ +:+ p +:+ DQ
  | Posix, CaptureStatus x => x +:+ "=$?"
  | Posix, ExitWith x => "exit $" +:+ x
  | Windows, DumpEnv p => "SET > " +:+ DQ +:+ p +:+ DQ
  | Windows, SourceHook p => "CALL " +:+ DQ +:+ p +:+ DQ
  | Windows, CaptureStatus x => "SET " +:+ x +:+ "=!ERRORLEVEL!"
  | Windows, ExitWith x => "EXIT %" +:+ x +:+ "%"
  end.

(** The lines a script starts with before its first step. *)
Definition preamble (d : dialect) : list string :=
  match d with
  | Posix => ["#!/bin/bash"]
  | Windows => ["@echo off"; "SETLOCAL ENABLEDELAYEDEXPANSION"]
  end.

Fixpoint join_lines (ls : list string) : string :=
  match ls with
  | [] => ""
  | [l] => l
  | l :: ls' => l +:+ LF +:+ join_lines ls'
  end.

Definition render (d : dialect) (cs : list command) : string :=
  join_lines (preamble d ++ map (render_command d) cs).

(** *** Reading text as steps *)

Fixpoint all_chars (P : ascii -> bool) (s : string) : bool :=
  match s with
  | EmptyString => true
  | String a s' => P a && all_chars P s'
  end.

(** The characters a double-quoted word of the dialect holds unchanged. *)
Definition quotable (d : dialect) (a : ascii) : bool :=
  match d with
  | Posix =>
      bool_decide (a ∉ ["034"; "$"; "`"; "092"; "010"]%char)
  | Windows =>
      bool_decide (a ∉ ["034"; "%"; "!"; "^"; "010"; "013"]%char)
  end.

Definition path_ok (d : dialect) (p : string) : bool :=
  all_chars (quotable d) p.

Definition name_char (a : ascii) : bool :=
  let n := nat_of_ascii a in
  (65 <=? n) && (n <=? 90) || (97 <=? n) && (n <=? 122) ||
  (48 <=? n) && (n <=? 57) || (n =? 95).

Definition is_name (x : string) : bool :=
  match x with
  | EmptyString => false
  | String _ _ => all_chars name_char x
  end.

Fixpoint split_on (c : ascii) (s : string) : list string :=
  match s with
  | EmptyString => [EmptyString]
  | String a s' =>
      if decide (a = c) then EmptyString :: split_on c s'
      else match split_on c s' with
           | l :: ls => String a l :: ls
           | [] => [String a EmptyString]
           end
  end.

Fixpoint cut_at (c : ascii) (s : string) : option (string * string) :=
  match s with
  | EmptyString => None
  | String a s' =>
      if decide (a = c) then Some (EmptyString, s')
      else match cut_at c s' with
           | Some (l, r) => Some (String a l, r)
           | None => None
           end
  end.

Fixpoint strip_prefix (p s : string) : option string :=
  match p, s with
  | EmptyString, _ => Some s
  | String a p', String b s' =>
      if decide (a = b) then strip_prefix p' s' else None
  | String _ _, EmptyString => None
  end.

(** The body of a double-quoted word, up to its closing quote, and what
    follows it. *)
Fixpoint quoted_body (d : dialect) (s : string) : option (string * string) :=
  match s with
  | EmptyString => None
  | String a s' =>
      if decide (a = "034"%char) then Some (EmptyString, s')
      else if quotable d a
           then match quoted_body d s' with
                | Some (b, r) => Some (String a b, r)
                | None => None
                end
           else None
  end.

(** A line remainder that is exactly one double-quoted word. *)
Definition quoted (d : dialect) (s : string) : option string :=
  match s with
  | String a s' =>
      if decide (a = "034"%char)
      then match quoted_body d s' with
           | Some (b, EmptyString) => Some b
           | _ => None
           end
      else None
  | EmptyString => None
  end.

(** One line of a bash script of the fragment: a comment, or one step. *)
Definition parse_posix_line (l : string) : option (option command) :=
  match strip_prefix "#" l with
  | Some _ => Some None
  | None =>
  match strip_prefix "export -p > " l with
  | Some q => p ← quoted Posix q; Some (Some (DumpEnv p))
  | None =>
  match strip_prefix ". " l with
  | Some q => p ← quoted Posix q; Some (Some (SourceHook p))
  | None =>
  match strip_prefix "exit $" l with
  | Some x => if is_name x then Some (Some (ExitWith x)) else None
  | None =>
  match cut_at "="%char l with
  | Some (x, r) =>
      if is_name x && bool_decide (r = "$?")
      then Some (Some (CaptureStatus x)) else None
  | None => None
  end end end end end.

Fixpoint parse_posix (ls : list string) : option (list command) :=
  match ls with
  | [] => Some []
  | l :: ls' =>
      c ← parse_posix_line l;
      cs ← parse_posix ls';
      Some (match c with Some c => c :: cs | None => cs end)
  end.

(** The lines of a batch file of the fragment.  [!ERRORLEVEL!] is read at
    run time only once [SETLOCAL ENABLEDELAYEDEXPANSION] has been seen. *)
Fixpoint parse_windows (delayed : bool) (ls : list string)
  : option (list command) :=
  match ls with
  | [] => Some []
  | l :: ls' =>
      if bool_decide (l = "@echo off") then parse_windows delayed ls'
      else if bool_decide (l = "SETLOCAL ENABLEDELAYEDEXPANSION")
      then parse_windows true ls'
      else
      match strip_prefix "SET > " l with
      | Some q =>
          p ← quoted Windows q; cs ← parse_windows delayed ls';
          Some (DumpEnv p :: cs)
      | None =>
      match strip_prefix "CALL " l with
      | Some q =>
          p ← quoted Windows q; cs ← parse_windows delayed ls';
          Some (SourceHook p :: cs)
      | None =>
      match strip_prefix "EXIT %" l with
      | Some r =>
          match cut_at "%"%char r with
          | Some (x, EmptyString) =>
              if is_name x
              then cs ← parse_windows delayed ls'; Some (ExitWith x :: cs)
              else None
          | _ => None
          end
      | None =>
      match strip_prefix "SET " l with
      | Some r =>
          match cut_at "="%char r with
          | Some (x, v) =>
              if delayed && is_name x && bool_decide (v = "!ERRORLEVEL!")
              then cs ← parse_windows delayed ls';
                   Some (CaptureStatus x :: cs)
              else None
          | None => None
          end
      | None => None
      end end end end
  end.

Definition parse_script (d : dialect) (script : string)
  : option (list command) :=
  match d with
  | Posix => parse_posix (split_on "010"%char script)
  | Windows => parse_windows false (split_on "010"%char script)
  end.

(** ** The decoder of a dump *)

(** Modelled from the spec: [env.FromExport] is not in bootstrap/hook.go.
    The spec (4.3) has the decoder read the dump line by line, never failing:
    a line declares a variable, or it is malformed and skipped; in the POSIX
    format a quoted value can go on over the following lines, so the decoder
    keeps the quote state from one line to the next; the last declaration of
    a name wins.  What a declaration looks like is the format of the
    platform. *)
Inductive declaration :=
| Declares (name value : string)
| Opens (name value : string)
| Malformed.

Record Format := mkFormat {
  (** what a line is when no quoted value is open *)
  read_line : string -> declaration;
  (** inside an open quoted value: the rest of the value, when the line
      ends it *)
  closes : string -> option string
}.

(** The snapshot decoded so far, and the name and the value read so far of
    the declaration whose quoted value is still open. *)
Definition decoder_state : Type := Environment * option (string * string).

Definition decode_line (fmt : Format) (st : decoder_state) (line : string)
  : decoder_state :=
  match st with
  | (e, Some (n, v)) =>
      match closes fmt line with
      | Some t => (<[n := v +:+ LF +:+ t]> e, None)
      | None => (e, Some (n, v +:+ LF +:+ line))
      end
  | (e, None) =>
      match read_line fmt line with
      | Declares n v => (<[n := v]> e, None)
      | Opens n v => (e, Some (n, v))
      | Malformed => (e, None)
      end
  end.

Definition read_lines (fmt : Format) (lines : list string) : decoder_state :=
  foldl (decode_line fmt) (∅, None) lines.

(** A value still open at the end of the dump is dropped. *)
Definition decode_dump (fmt : Format) (s : string) : Environment :=
  fst (read_lines fmt (split_on "010"%char s)).

(** Modelled from the spec: the Windows format, one [NAME=value] line per
    variable, no quoting.  A line without [=] or with an empty name is
    malformed. *)
Definition name_value (line : string) : declaration :=
  match cut_at "="%char line with
  | Some (EmptyString, _) => Malformed
  | Some (n, v) => Declares n v
  | None => Malformed
  end.

Definition windows_format : Format := mkFormat name_value (fun _ => None).

(** Modelled from the spec: a POSIX format, one export statement per
    variable with the value between double quotes.  The statement starts
    with [declare -x] (bash) or [export] (sh); a value ends on the line that
    ends with a double quote not preceded by a backslash; the bytes between
    the quotes are kept as they are. *)
Definition strip_export (line : string) : option string :=
  match strip_prefix "declare -x " line with
  | Some r => Some r
  | None => strip_prefix "export " line
  end.

Fixpoint closing_quote (s : string) : option string :=
  match s with
  | EmptyString => None
  | String a s' =>
      match s' with
      | EmptyString => if decide (a = "034"%char) then Some "" else None
      | String b EmptyString =>
          if decide (b = "034"%char)
          then if decide (a = "092"%char) then None else Some (String a "")
          else None
      | String _ (String _ _) =>
          match closing_quote s' with
          | Some t => Some (String a t)
          | None => None
          end
      end
  end.

Definition export_statement (line : string) : declaration :=
  match strip_export line with
  | None => Malformed
  | Some r =>
      match cut_at "="%char r with
      | None => Malformed
      | Some (n, v) =>
          if is_name n
          then match strip_prefix DQ v with
               | None => Malformed
               | Some body =>
                   match closing_quote body with
                   | Some t => Declares n t
                   | None => Opens n body
                   end
               end
          else Malformed
      end
  end.

Definition export_format : Format := mkFormat export_statement closing_quote.

(** ** A concrete host, to run the model *)

(** Modelled from the spec: the Windows dump format, one [NAME=value] line
    per variable; a line without [=] or with an empty name is skipped and
    the last declaration of a name wins. *)
Definition decode_lines (s : string) : Environment :=
  foldl (fun e line =>
           match cut_at "="%char line with
           | Some (EmptyString, _) => e
           | Some (n, v) => <[n := v]> e
           | None => e
           end) ∅ (split_on "010"%char s).

Definition nth_temp (w : World) (filename : string) : string :=
  "/tmp/" +:+ filename +:+ "-" +:+
  NilEmpty.string_of_uint (Nat.to_uint (length (trace w))).

(** A Linux host on which every call succeeds. *)
Definition linux : Host :=
  mkHost "linux" (fun n => n) (fun w n => Some (nth_temp w n))
         (fun p => Some p) (fun _ => true) (fun _ => true) (fun _ => true)
         (fun _ => None) decode_lines.

Definition empty_world : World := mkWorld ∅ [] [].

(** ** The runs of the constructor, as a relation *)

Definition runner_name (host : Host) : string :=
  normalizeScriptFileName host "buildkite-agent-bootstrap-hook-runner".
Definition before_name : string := "buildkite-agent-bootstrap-hook-env-before".
Definition after_name : string := "buildkite-agent-bootstrap-hook-env-after".

Definition empty_file : inode := mkInode "" false.

(** The six ways [newHookScriptWrapper] can end from a world [w], each with
    what it returns and the world it leaves: [s], [b] and [a] are the paths
    of the script and of the two dumps. *)
Inductive constructed (host : Host) (hookPath : string) (w : World)
  : result -> World -> Prop :=
| script_temp_fails :
    constructed host hookPath w
      (None, Some (ErrTempFile (runner_name host)))
      (mkWorld (disk w) (open_fds w)
               (trace w ++ [EvTempFile (runner_name host) None]))
| before_temp_fails s :
    disk w !! s = None ->
    constructed host hookPath w
      (None, Some (ErrTempFile before_name))
      (mkWorld (<[s := empty_file]> (disk w))
               (fresh_fd (open_fds w) :: open_fds w)
               (trace w ++ [EvTempFile (runner_name host) (Some s);
                            EvTempFile before_name None]))
| after_temp_fails s b :
    disk w !! s = None -> s ≠ b ->
    constructed host hookPath w
      (None, Some (ErrTempFile after_name))
      (mkWorld (<[b := empty_file]> (<[s := empty_file]> (disk w)))
               (fresh_fd (open_fds w) :: open_fds w)
               (trace w ++ [EvTempFile (runner_name host) (Some s);
                            EvTempFile before_name (Some b);
                            EvClose b;
                            EvTempFile after_name None]))
| abs_fails s b a :
    disk w !! s = None -> s ≠ b -> s ≠ a -> b ≠ a ->
    Abs host hookPath = None ->
    constructed host hookPath w
      (None, Some (Errorf_AbsolutePath hookPath (ErrAbs hookPath)))
      (mkWorld (<[a := empty_file]>
                  (<[b := empty_file]> (<[s := empty_file]> (disk w))))
               (fresh_fd (open_fds w) :: open_fds w)
               (trace w ++ [EvTempFile (runner_name host) (Some s);
                            EvTempFile before_name (Some b);
                            EvClose b;
                            EvTempFile after_name (Some a);
                            EvClose a;
                            EvAbs hookPath]))
| chmod_fails s b a absolutePathToHook :
    disk w !! s = None -> s ≠ b -> s ≠ a -> b ≠ a ->
    Abs host hookPath = Some absolutePathToHook ->
    chmod_ok host s = false ->
    let script := hook_runner_script (GOOS host) b absolutePathToHook a in
    let fs := fresh_fd (open_fds w) in
    let fo := fresh_fd (fs :: open_fds w) in
    constructed host hookPath w
      (Some (mkWrapper hookPath (Some (mkFile s fs)) (Some (mkFile b fo))
                       (Some (mkFile a fo))),
       Some (ErrChmod s))
      (mkWorld (<[s := mkInode (accepted host s script) false]>
                  (<[a := empty_file]>
                     (<[b := empty_file]> (<[s := empty_file]> (disk w)))))
               (open_fds w)
               (trace w ++ [EvTempFile (runner_name host) (Some s);
                            EvTempFile before_name (Some b);
                            EvClose b;
                            EvTempFile after_name (Some a);
                            EvClose a;
                            EvAbs hookPath;
                            EvWrite s script;
                            EvClose s;
                            EvChmod s]))
| construction_succeeds s b a absolutePathToHook :
    disk w !! s = None -> s ≠ b -> s ≠ a -> b ≠ a ->
    Abs host hookPath = Some absolutePathToHook ->
    chmod_ok host s = true ->
    let script := hook_runner_script (GOOS host) b absolutePathToHook a in
    let fs := fresh_fd (open_fds w) in
    let fo := fresh_fd (fs :: open_fds w) in
    constructed host hookPath w
      (Some (mkWrapper hookPath (Some (mkFile s fs)) (Some (mkFile b fo))
                       (Some (mkFile a fo))),
       None)
      (mkWorld (<[s := mkInode (accepted host s script) true]>
                  (<[s := mkInode (accepted host s script) false]>
                     (<[a := empty_file]>
                        (<[b := empty_file]> (<[s := empty_file]> (disk w))))))
               (open_fds w)
               (trace w ++ [EvTempFile (runner_name host) (Some s);
                            EvTempFile before_name (Some b);
                            EvClose b;
                            EvTempFile after_name (Some a);
                            EvClose a;
                            EvAbs hookPath;
                            EvWrite s script;
                            EvClose s;
                            EvChmod s])).

(** ** What the claims observe of worlds, traces and scripts *)

Definition not_lf (a : ascii) : bool := negb (bool_decide (a = "010"%char)).

(** What [ioutil.ReadFile] yields for a path in a world. *)
Definition read_text (host : Host) (w : World) (path : string)
  : option string :=
  match disk w !! path with
  | Some i => if readable host path then Some (content i) else None
  | None => None
  end.

(** The disk after [os.Remove] was called on a path. *)
Definition unlinked (host : Host) (path : string) (d : gmap string inode)
  : gmap string inode :=
  if removable host path then delete path d else d.

(** The paths [addExecutePermissiontoFile] was called on. *)
Definition chmod_calls (evs : list event) : list string :=
  omap (fun e => match e with EvChmod p => Some p | _ => None end) evs.

(** The paths [os.Remove] was called on. *)
Definition remove_calls (evs : list event) : list string :=
  omap (fun e => match e with EvRemove p => Some p | _ => None end) evs.

(** The paths [WriteString] was called on. *)
Definition write_calls (evs : list event) : list string :=
  omap (fun e => match e with EvWrite p _ => Some p | _ => None end) evs.

(** The temporary files created. *)
Definition created_files (evs : list event) : list string :=
  omap (fun e => match e with EvTempFile _ p => p | _ => None end) evs.

Definition logged (evs : list event) (w : World) : World :=
  mkWorld (disk w) (open_fds w) (trace w ++ evs).

Definition files_of (h : hookScriptWrapper) : list (option File) :=
  [scriptFile h; beforeEnvFile h; afterEnvFile h].

(** The property C7 asks of [Close]: it ends, and none of the three paths
    is on disk afterwards. *)
Definition Close_removes_all (host : Host) (h : hookScriptWrapper)
    (w : World) : Prop :=
  exists w',
    Close host h w = Done tt w' /\
    forall f, Some f ∈ files_of h -> disk w' !! Name f = None.

(** ** More concrete hosts and worlds *)

Definition malformed_dump : string :=
  "no equals sign here" +:+ LF +:+ "=value without a name" +:+ LF +:+
  "FOO=bar" +:+ LF +:+ LF +:+ "FOO=baz".

Definition dumps_world (before after : string) : World :=
  mkWorld (<["/tmp/env-after" := mkInode after false]>
             (<["/tmp/env-before" := mkInode before false]> ∅)) [] [].

Definition dumps_wrapper : hookScriptWrapper :=
  mkWrapper "/hooks/pre-command" (Some (mkFile "/tmp/runner" 1))
            (Some (mkFile "/tmp/env-before" 2))
            (Some (mkFile "/tmp/env-after" 2)).

Definition before_dump : string := "PATH=/usr/bin" +:+ LF +:+ "HOME=/root".
Definition after_dump : string :=
  "PATH=/usr/bin:/extra" +:+ LF +:+ "HOME=/root" +:+ LF +:+ "FOO=bar"
  +:+ LF +:+ "BUILDKITE_LAST_HOOK_EXIT_STATUS=0".

(** A Linux host whose temporary directory refuses every unlink. *)
Definition sticky_tmp : Host :=
  mkHost "linux" (fun n => n) (fun w n => Some (nth_temp w n))
         (fun p => Some p) (fun _ => true) (fun _ => false) (fun _ => true)
         (fun _ => None) decode_lines.

(** What the constructor builds on [linux] from the empty world. *)
Definition linux_runner : string :=
  "/tmp/buildkite-agent-bootstrap-hook-runner-0".
Definition linux_before : string :=
  "/tmp/buildkite-agent-bootstrap-hook-env-before-1".
Definition linux_after : string :=
  "/tmp/buildkite-agent-bootstrap-hook-env-after-3".

Definition linux_wrapper : hookScriptWrapper :=
  mkWrapper "/hooks/pre-command" (Some (mkFile linux_runner 1))
            (Some (mkFile linux_before 2)) (Some (mkFile linux_after 2)).

Definition linux_script : string :=
  posix_script linux_before "/hooks/pre-command" linux_after.

Definition linux_events : list event :=
  [ EvTempFile "buildkite-agent-bootstrap-hook-runner" (Some linux_runner);
    EvTempFile before_name (Some linux_before);
    EvClose linux_before;
    EvTempFile after_name (Some linux_after);
    EvClose linux_after;
    EvAbs "/hooks/pre-command";
    EvWrite linux_runner linux_script;
    EvClose linux_runner;
    EvChmod linux_runner ].

Definition linux_world : World :=
  mkWorld (<[linux_runner := mkInode linux_script true]>
             (<[linux_after := empty_file]>
                (<[linux_before := empty_file]> ∅)))
          [] linux_events.

(** A Linux host whose working directory is gone, so that no relative path
    can be made absolute. *)
Definition no_cwd : Host :=
  mkHost "linux" (fun n => n) (fun w n => Some (nth_temp w n))
         (fun _ => None) (fun _ => true) (fun _ => true) (fun _ => true)
         (fun _ => None) decode_lines.

(** A Linux host whose temporary directory has room for eleven more bytes:
    files can still be created, and a write is cut short. *)
Definition full_disk : Host :=
  mkHost "linux" (fun n => n) (fun w n => Some (nth_temp w n))
         (fun p => Some p) (fun _ => true) (fun _ => true) (fun _ => true)
         (fun _ => Some 11) decode_lines.

(** A Windows host on which every call succeeds, with the decoder of the
    Windows dump format. *)
Definition windows_host : Host :=
  mkHost "windows" (fun n => n +:+ ".bat") (fun w n => Some (nth_temp w n))
         (fun p => Some p) (fun _ => true) (fun _ => true) (fun _ => true)
         (fun _ => None) (decode_dump windows_format).

(** A dump of the hook's run with a line in it that declares nothing. *)
Definition garbled_after_dump : string :=
  join_lines (["PATH=/usr/bin:/extra"; "HOME=/root"]
              ++ "no equals sign here" :: ["FOO=bar"]).

(** A bash dump with a value of two lines and a line that is no export
    statement. *)
Definition bash_dump : string :=
  join_lines
    [ "declare -x FOO=" +:+ DQ +:+ "bar" +:+ DQ;
      "bash: warning: something went wrong";
      "declare -x MOTD=" +:+ DQ +:+ "line one";
      "line two" +:+ DQ;
      "declare -x FOO=" +:+ DQ +:+ "baz" +:+ DQ ].

(** A Linux host that runs out of temporary files after the first one. *)
Definition one_temp_file : Host :=
  mkHost "linux" (fun n => n)
         (fun w n => if decide (n = "buildkite-agent-bootstrap-hook-runner")
                     then Some (nth_temp w n) else None)
         (fun p => Some p) (fun _ => true) (fun _ => true) (fun _ => true)
         (fun _ => None) decode_lines.

(** ** Paths to write into a script *)


(** A hook path with a double quote in it, between [pre] and [command]. *)
Definition quoted_hook_path : string :=
  "/hooks/pre" +:+ DQ +:+ "command".

(** * Proofs *)

(** ** The constructor *)

Lemma fresh_fd_not_elem (fds : list nat) : fresh_fd fds ∉ fds.
Proof.
  intros Hin. apply max_list_elem_of_le in Hin. unfold fresh_fd in Hin. lia.
Qed.

Lemma close_fresh (x : nat) (fds : list nat) :
  x ∉ fds -> filter (fun n => n ≠ x) (x :: fds) = fds.
Proof.
  intros Hx. rewrite filter_cons_False by (intros H; by apply H).
  induction fds as [|y fds IH]; [done|].
  rewrite filter_cons_True by set_solver. f_equal. apply IH. set_solver.
Qed.

Ltac exec_step :=
  unfold TempFileWithExtension, file_Close, file_name,
    file_WriteString, filepath_Abs, addExecutePermissiontoFile, bind, emit,
    ret, panic;
  cbn [disk open_fds trace fd Name hookPath scriptFile beforeEnvFile
       afterEnvFile fst snd].

Ltac norm_world :=
  cbn [disk open_fds trace fd Name hookPath scriptFile beforeEnvFile
       afterEnvFile fst snd content executable];
  rewrite <- ?(assoc_L (++)); cbn [app].

Lemma newHookScriptWrapper_constructed host hookPath w :
  exists r w', newHookScriptWrapper host hookPath w = Done r w' /\
               constructed host hookPath w r w'.
Proof.
  unfold newHookScriptWrapper. exec_step.
  destruct (temp_path host w _) as [s|] eqn:Hs;
    [|eexists _, _; split; [done|apply script_temp_fails]].
  destruct (disk w !! s) eqn:Hds;
    [eexists _, _; split; [done|apply script_temp_fails]|].
  norm_world.
  match goal with |- context [temp_path ?h ?w ?n] =>
    destruct (temp_path h w n) as [b|] eqn:Hb end;
    [|eexists _, _; split; [done|by apply before_temp_fails]].
  match goal with |- context [match ?m !! b with _ => _ end] =>
    destruct (m !! b) eqn:Hdb end;
    [eexists _, _; split; [done|by apply before_temp_fails]|].
  norm_world.
  apply lookup_insert_None in Hdb as [Hdb Hsb].
  rewrite decide_True by set_solver.
  rewrite close_fresh by apply fresh_fd_not_elem.
  norm_world.
  match goal with |- context [temp_path ?h ?w ?n] =>
    destruct (temp_path h w n) as [a|] eqn:Ha end;
    [|eexists _, _; split; [done|by apply after_temp_fails]].
  match goal with |- context [match ?m !! a with _ => _ end] =>
    destruct (m !! a) eqn:Hda end;
    [eexists _, _; split; [done|by apply after_temp_fails]|].
  norm_world.
  apply lookup_insert_None in Hda as [Hda Hba].
  apply lookup_insert_None in Hda as [Hda Hsa].
  rewrite decide_True by set_solver.
  rewrite close_fresh by apply fresh_fd_not_elem.
  norm_world.
  destruct (Abs host hookPath) as [p|] eqn:Habs;
    [|eexists _, _; split; [done|by apply abs_fails]].
  norm_world.
  rewrite decide_True by set_solver.
  rewrite lookup_insert_ne by done. rewrite lookup_insert_ne by done.
  rewrite lookup_insert_eq.
  norm_world.
  rewrite decide_True by set_solver.
  rewrite close_fresh by apply fresh_fd_not_elem.
  norm_world. rewrite lookup_insert_eq.
  change ("" +:+ ?x) with x.
  destruct (chmod_ok host s) eqn:Hch; norm_world.
  - eexists _, _; split; [done|]. by apply construction_succeeds.
  - eexists _, _; split; [done|]. by apply chmod_fails.
Qed.

(** ** Strings *)

Lemma append_cons (a : ascii) (s t : string) :
  String a s +:+ t = String a (s +:+ t).
Proof. reflexivity. Qed.

Lemma append_assoc (s t u : string) : (s +:+ t) +:+ u = s +:+ (t +:+ u).
Proof.
  induction s as [|a s IH]; [reflexivity|].
  rewrite !append_cons. by rewrite IH.
Qed.

Lemma all_chars_append (P : ascii -> bool) (s t : string) :
  all_chars P (s +:+ t) = all_chars P s && all_chars P t.
Proof.
  induction s as [|a s IH]; [reflexivity|].
  rewrite append_cons. cbn [all_chars]. rewrite IH. by rewrite andb_assoc.
Qed.

Lemma split_on_line (l rest : string) :
  all_chars not_lf l = true ->
  split_on "010" (l +:+ LF +:+ rest) = l :: split_on "010" rest.
Proof.
  induction l as [|a l IH]; intros Hl; [reflexivity|].
  cbn [all_chars] in Hl. apply andb_prop in Hl as [Ha Hl].
  rewrite append_cons. cbn [split_on].
  unfold not_lf in Ha. apply negb_true_iff, bool_decide_eq_false in Ha.
  rewrite decide_False by done. by rewrite IH.
Qed.

Lemma split_on_last (l : string) :
  all_chars not_lf l = true -> split_on "010" l = [l].
Proof.
  induction l as [|a l IH]; intros Hl; [reflexivity|].
  cbn [all_chars] in Hl. apply andb_prop in Hl as [Ha Hl].
  cbn [split_on].
  unfold not_lf in Ha. apply negb_true_iff, bool_decide_eq_false in Ha.
  rewrite decide_False by done. by rewrite IH.
Qed.

Lemma split_on_join_lines (l : string) (ls : list string) :
  Forall (fun l => all_chars not_lf l = true) (l :: ls) ->
  split_on "010" (join_lines (l :: ls)) = l :: ls.
Proof.
  revert l. induction ls as [|l' ls IH]; intros l Hall.
  - apply split_on_last. by inversion Hall.
  - inversion Hall as [|? ? Hl Hrest]; subst.
    change (join_lines (l :: l' :: ls))
      with (l +:+ LF +:+ join_lines (l' :: ls)).
    rewrite split_on_line by done. by rewrite IH.
Qed.

Lemma all_chars_impl (P Q : ascii -> bool) (s : string) :
  (forall a, P a = true -> Q a = true) ->
  all_chars P s = true -> all_chars Q s = true.
Proof.
  intros HPQ. induction s as [|a s IH]; [done|].
  cbn [all_chars]. intros [Ha Hs]%andb_prop.
  by rewrite (HPQ _ Ha), IH.
Qed.

Lemma quotable_not_lf (d : dialect) (a : ascii) :
  quotable d a = true -> not_lf a = true.
Proof.
  unfold quotable, not_lf.
  destruct d; intros H%bool_decide_eq_true;
    apply negb_true_iff, bool_decide_eq_false; set_solver.
Qed.

Lemma quotable_not_dq (d : dialect) (a : ascii) :
  quotable d a = true -> a ≠ "034"%char.
Proof.
  unfold quotable. destruct d; intros H%bool_decide_eq_true; set_solver.
Qed.

Lemma path_ok_not_lf (d : dialect) (p : string) :
  path_ok d p = true -> all_chars not_lf p = true.
Proof. apply all_chars_impl, quotable_not_lf. Qed.

Lemma quoted_body_closing (d : dialect) (p rest : string) :
  path_ok d p = true ->
  quoted_body d (p +:+ DQ +:+ rest) = Some (p, rest).
Proof.
  induction p as [|a p IH]; intros Hp; [reflexivity|].
  cbn [path_ok all_chars] in Hp. apply andb_prop in Hp as [Ha Hp].
  rewrite append_cons. cbn [quoted_body].
  rewrite decide_False by by eapply quotable_not_dq.
  rewrite Ha. by rewrite IH.
Qed.

Lemma quoted_word (d : dialect) (p : string) :
  path_ok d p = true -> quoted d (DQ +:+ p +:+ DQ) = Some p.
Proof.
  intros Hp. change (DQ +:+ p +:+ DQ) with (String "034" (p +:+ DQ +:+ "")).
  cbn [quoted]. rewrite decide_True by done.
  by rewrite quoted_body_closing.
Qed.

Lemma posix_script_render (b h a : string) :
  posix_script b h a = render Posix (wrapper_steps b h a).
Proof.
  unfold posix_script, render, wrapper_steps. cbn [preamble map app].
  cbn [join_lines render_command]. rewrite !append_assoc. reflexivity.
Qed.

Lemma windows_script_render (b h a : string) :
  windows_script b h a = render Windows (wrapper_steps b h a).
Proof.
  unfold windows_script, render, wrapper_steps. cbn [preamble map app].
  cbn [join_lines render_command]. rewrite !append_assoc. reflexivity.
Qed.

(** ** Reading the two scripts back *)

Lemma parse_posix_dump (p : string) :
  path_ok Posix p = true ->
  parse_posix_line ("export -p > " +:+ DQ +:+ p +:+ DQ)
  = Some (Some (DumpEnv p)).
Proof.
  intros Hp.
  change (parse_posix_line ("export -p > " +:+ DQ +:+ p +:+ DQ))
    with (p' ← quoted Posix (DQ +:+ p +:+ DQ); Some (Some (DumpEnv p'))).
  by rewrite quoted_word.
Qed.

Lemma parse_posix_source (p : string) :
  path_ok Posix p = true ->
  parse_posix_line (". " +:+ DQ +:+ p +:+ DQ) = Some (Some (SourceHook p)).
Proof.
  intros Hp.
  change (parse_posix_line (". " +:+ DQ +:+ p +:+ DQ))
    with (p' ← quoted Posix (DQ +:+ p +:+ DQ); Some (Some (SourceHook p'))).
  by rewrite quoted_word.
Qed.

Lemma parse_windows_dump (delayed : bool) (p : string) (ls : list string) :
  path_ok Windows p = true ->
  parse_windows delayed (("SET > " +:+ DQ +:+ p +:+ DQ) :: ls)
  = cs ← parse_windows delayed ls; Some (DumpEnv p :: cs).
Proof.
  intros Hp.
  change (parse_windows delayed (("SET > " +:+ DQ +:+ p +:+ DQ) :: ls))
    with (p' ← quoted Windows (DQ +:+ p +:+ DQ);
          cs ← parse_windows delayed ls; Some (DumpEnv p' :: cs)).
  by rewrite quoted_word.
Qed.

Lemma parse_windows_call (delayed : bool) (p : string) (ls : list string) :
  path_ok Windows p = true ->
  parse_windows delayed (("CALL " +:+ DQ +:+ p +:+ DQ) :: ls)
  = cs ← parse_windows delayed ls; Some (SourceHook p :: cs).
Proof.
  intros Hp.
  change (parse_windows delayed (("CALL " +:+ DQ +:+ p +:+ DQ) :: ls))
    with (p' ← quoted Windows (DQ +:+ p +:+ DQ);
          cs ← parse_windows delayed ls; Some (SourceHook p' :: cs)).
  by rewrite quoted_word.
Qed.

Lemma quoted_line_not_lf (d : dialect) (pre p : string) :
  all_chars not_lf pre = true -> path_ok d p = true ->
  all_chars not_lf (pre +:+ DQ +:+ p +:+ DQ) = true.
Proof.
  intros Hpre Hp. rewrite !all_chars_append, Hpre.
  by rewrite (path_ok_not_lf d p Hp).
Qed.

Lemma parse_posix_script (b h a : string) :
  path_ok Posix b = true -> path_ok Posix h = true ->
  path_ok Posix a = true ->
  parse_script Posix (posix_script b h a) = Some (wrapper_steps b h a).
Proof.
  intros Hb Hh Ha. rewrite posix_script_render.
  unfold parse_script, render, wrapper_steps.
  cbn [preamble map app render_command].
  rewrite split_on_join_lines.
  2:{ repeat apply Forall_cons_2; try apply Forall_nil_2;
      try reflexivity; by eapply quoted_line_not_lf. }
  cbn [parse_posix].
  rewrite !parse_posix_dump, !parse_posix_source by done.
  reflexivity.
Qed.

Lemma parse_windows_script (b h a : string) :
  path_ok Windows b = true -> path_ok Windows h = true ->
  path_ok Windows a = true ->
  parse_script Windows (windows_script b h a) = Some (wrapper_steps b h a).
Proof.
  intros Hb Hh Ha. rewrite windows_script_render.
  unfold parse_script, render, wrapper_steps.
  cbn [preamble map app render_command].
  rewrite split_on_join_lines.
  2:{ repeat apply Forall_cons_2; try apply Forall_nil_2;
      try reflexivity; by eapply quoted_line_not_lf. }
  change (parse_windows false ("@echo off" :: ?ls))
    with (parse_windows false ls).
  change (parse_windows false ("SETLOCAL ENABLEDELAYEDEXPANSION" :: ?ls))
    with (parse_windows true ls).
  rewrite parse_windows_dump, parse_windows_call by done.
  change (parse_windows true
            (("SET " +:+ BUILDKITE_LAST_HOOK_EXIT_STATUS +:+ "=!ERRORLEVEL!")
               :: ?ls))
    with (cs ← parse_windows true ls;
          Some (CaptureStatus BUILDKITE_LAST_HOOK_EXIT_STATUS :: cs)).
  rewrite parse_windows_dump by done.
  reflexivity.
Qed.

Lemma parse_hook_runner_script (goos b h a : string) :
  path_ok (dialect_of goos) b = true ->
  path_ok (dialect_of goos) h = true ->
  path_ok (dialect_of goos) a = true ->
  parse_script (dialect_of goos) (hook_runner_script goos b h a)
  = Some (wrapper_steps b h a).
Proof.
  unfold dialect_of, hook_runner_script.
  destruct (decide (goos = "windows")); intros.
  - by apply parse_windows_script.
  - by apply parse_posix_script.
Qed.

(** ** The claims about the script *)

(** C4, as stated, fails: the paths are written between double quotes as
    they are, and with a double quote in the hook path the text is not read
    as five steps. *)
Lemma posix_script_quoted_path_unreadable :
  parse_script Posix
    (hook_runner_script "linux" "/tmp/b" quoted_hook_path "/tmp/a")
  = None /\
  parse_script Posix
    (hook_runner_script "linux" "/tmp/b" quoted_hook_path "/tmp/a")
  ≠ Some [ DumpEnv "/tmp/b";
           SourceHook quoted_hook_path;
           CaptureStatus BUILDKITE_LAST_HOOK_EXIT_STATUS;
           DumpEnv "/tmp/a";
           ExitWith BUILDKITE_LAST_HOOK_EXIT_STATUS ].
Proof.
  assert (H : parse_script Posix
                (hook_runner_script "linux" "/tmp/b" quoted_hook_path "/tmp/a")
              = None) by (vm_compute; reflexivity).
  split; [exact H|]. rewrite H. discriminate.
Qed.

(** C4, amended.  On every platform but Windows, for a hook path and two
    dump paths without double quote, dollar sign, backquote, backslash and
    newline, the script is the [#!/bin/bash] line followed by five lines, and
    bash's reader takes them as exactly five steps in this order: dump to the
    before path, source the hook with [.], capture the status into the
    sentinel variable, dump to the after path, exit with the sentinel
    variable. *)
Theorem posix_script_five_steps (goos b h a : string) :
  goos ≠ "windows" ->
  path_ok Posix b = true -> path_ok Posix h = true ->
  path_ok Posix a = true ->
  hook_runner_script goos b h a
  = join_lines
      [ "#!/bin/bash";
        "export -p > " +:+ DQ +:+ b +:+ DQ;
        ". " +:+ DQ +:+ h +:+ DQ;
        "BUILDKITE_LAST_HOOK_EXIT_STATUS=$?";
        "export -p > " +:+ DQ +:+ a +:+ DQ;
        "exit $BUILDKITE_LAST_HOOK_EXIT_STATUS" ] /\
  parse_script Posix (hook_runner_script goos b h a)
  = Some [ DumpEnv b;
           SourceHook h;
           CaptureStatus BUILDKITE_LAST_HOOK_EXIT_STATUS;
           DumpEnv a;
           ExitWith BUILDKITE_LAST_HOOK_EXIT_STATUS ].
Proof.
  intros Hg Hb Hh Ha.
  assert (Hs : hook_runner_script goos b h a = posix_script b h a)
    by (unfold hook_runner_script; by rewrite decide_False).
  rewrite Hs. split.
  - apply posix_script_render.
  - by apply parse_posix_script.
Qed.

Lemma posix_script_five_steps_witness :
  hook_runner_script "darwin" "/tmp/b" "/hooks/environment" "/tmp/a"
  = join_lines
      [ "#!/bin/bash";
        "export -p > " +:+ DQ +:+ "/tmp/b" +:+ DQ;
        ". " +:+ DQ +:+ "/hooks/environment" +:+ DQ;
        "BUILDKITE_LAST_HOOK_EXIT_STATUS=$?";
        "export -p > " +:+ DQ +:+ "/tmp/a" +:+ DQ;
        "exit $BUILDKITE_LAST_HOOK_EXIT_STATUS" ] /\
  parse_script Posix
    (hook_runner_script "darwin" "/tmp/b" "/hooks/environment" "/tmp/a")
  = Some [ DumpEnv "/tmp/b";
           SourceHook "/hooks/environment";
           CaptureStatus BUILDKITE_LAST_HOOK_EXIT_STATUS;
           DumpEnv "/tmp/a";
           ExitWith BUILDKITE_LAST_HOOK_EXIT_STATUS ].
Proof.
  apply (posix_script_five_steps
           "darwin" "/tmp/b" "/hooks/environment" "/tmp/a");
    [discriminate | reflexivity | reflexivity | reflexivity].
Defined.




(** ** The methods of a constructed wrapper *)

Lemma os_Remove_eq (host : Host) (path : string) (w : World) :
  exists e,
    os_Remove host path w
    = Done e (mkWorld (unlinked host path (disk w)) (open_fds w)
                      (trace w ++ [EvRemove path])).
Proof.
  unfold os_Remove, unlinked, bind, emit. cbn [disk open_fds trace].
  destruct (disk w !! path) eqn:Hp; destruct (removable host path);
    eauto.
  rewrite delete_id by done. eauto.
Qed.

Lemma lookup_unlinked (host : Host) (p q : string) (d : gmap string inode) :
  unlinked host p d !! q
  = if decide (p = q) then (if removable host p then None else d !! q)
    else d !! q.
Proof.
  unfold unlinked. destruct (removable host p); case_decide; subst;
    try done.
  - apply lookup_delete_eq.
  - by apply lookup_delete_ne.
Qed.

Lemma bind_ret {A B} (a : A) (k : A -> M B) (w : World) :
  bind (ret a) k w = k a w.
Proof. reflexivity. Qed.

Lemma bind_Done {A B} (c : M A) (k : A -> M B) (w w1 : World) (a : A) :
  c w = Done a w1 -> bind c k w = k a w1.
Proof. unfold bind. by intros ->. Qed.

Lemma lookup_unlinked3 (host : Host) (s b a : string)
    (d : gmap string inode) (p : string) :
  unlinked host a (unlinked host b (unlinked host s d)) !! p
  = if decide (p ∈ [s; b; a] /\ removable host p = true)
    then None else d !! p.
Proof.
  rewrite !lookup_unlinked.
  destruct (decide (p ∈ [s; b; a] /\ removable host p = true))
    as [[Hin Hp]|Hnin].
  - rewrite !elem_of_cons, elem_of_nil in Hin.
    repeat case_decide; subst; rewrite ?Hp; try done.
    destruct Hin as [?|[?|[?|[]]]]; congruence.
  - rewrite !elem_of_cons, elem_of_nil in Hnin.
    repeat case_decide; subst; try done;
      match goal with
      | |- context [removable host ?q] =>
          destruct (removable host q) eqn:Hq; [|done]
      end; exfalso; apply Hnin; auto.
Qed.

Lemma Close_eq (host : Host) (hp : string) (sf bf af : File) (w : World) :
  Close host (mkWrapper hp (Some sf) (Some bf) (Some af)) w
  = Done tt
      (mkWorld (unlinked host (Name af)
                  (unlinked host (Name bf)
                     (unlinked host (Name sf) (disk w))))
               (open_fds w)
               (trace w ++ [EvRemove (Name sf); EvRemove (Name bf);
                            EvRemove (Name af)])).
Proof.
  unfold Close, file_name. cbn [scriptFile beforeEnvFile afterEnvFile].
  rewrite bind_ret.
  destruct (os_Remove_eq host (Name sf) w) as [e1 H1].
  rewrite (bind_Done _ _ _ _ _ H1), bind_ret.
  match type of H1 with _ = Done _ ?w1 =>
    destruct (os_Remove_eq host (Name bf) w1) as [e2 H2] end.
  rewrite (bind_Done _ _ _ _ _ H2), bind_ret.
  match type of H2 with _ = Done _ ?w1 =>
    destruct (os_Remove_eq host (Name af) w1) as [e3 H3] end.
  rewrite (bind_Done _ _ _ _ _ H3).
  unfold ret. cbn [disk open_fds trace].
  by rewrite <- !(assoc_L (++)).
Qed.

Lemma ioutil_ReadFile_eq (host : Host) (path : string) (w : World) :
  ioutil_ReadFile host path w
  = Done (match read_text host w path with
          | Some t => (t, None)
          | None => ("", Some (ErrReadFile path))
          end)
         (mkWorld (disk w) (open_fds w) (trace w ++ [EvReadFile path])).
Proof.
  unfold ioutil_ReadFile, read_text, bind, emit. cbn [disk open_fds trace].
  destruct (disk w !! path); [destruct (readable host path)|]; done.
Qed.

Lemma ChangedEnvironment_eq (host : Host) (hp : string) (sf : option File)
    (bf af : File) (w : World) :
  ChangedEnvironment host (mkWrapper hp sf (Some bf) (Some af)) w
  = match read_text host w (Name bf) with
    | None =>
        Done (None, Some (Errorf_Read (Name bf) (ErrReadFile (Name bf))))
             (logged [EvReadFile (Name bf)] w)
    | Some tb =>
        match read_text host w (Name af) with
        | None =>
            Done (None, Some (Errorf_Read (Name af) (ErrReadFile (Name af))))
                 (logged [EvReadFile (Name bf); EvReadFile (Name af)] w)
        | Some ta =>
            Done (Some (Diff (delete BUILDKITE_LAST_HOOK_EXIT_STATUS
                                     (FromExport host ta))
                             (FromExport host tb)), None)
                 (logged [EvReadFile (Name bf); EvReadFile (Name af)] w)
        end
    end.
Proof.
  unfold ChangedEnvironment, file_name, logged.
  cbn [beforeEnvFile afterEnvFile].
  rewrite bind_ret.
  rewrite (bind_Done _ _ _ _ _ (ioutil_ReadFile_eq host (Name bf) w)).
  destruct (read_text host w (Name bf)) as [tb|] eqn:Hb; [|done].
  rewrite bind_ret.
  match goal with |- bind (ioutil_ReadFile host _) _ ?w1 = _ =>
    rewrite (bind_Done _ _ _ _ _ (ioutil_ReadFile_eq host (Name af) w1));
    change (read_text host w1 (Name af)) with (read_text host w (Name af))
  end.
  destruct (read_text host w (Name af)) as [ta|] eqn:Ha;
    unfold ret; cbn [disk open_fds trace snd Remove];
    by rewrite <- !(assoc_L (++)).
Qed.

Lemma lookup_Diff (e other : Environment) (k v : string) :
  Diff e other !! k = Some v <-> e !! k = Some v /\ other !! k ≠ Some v.
Proof.
  unfold Diff. rewrite map_lookup_imap.
  destruct (e !! k) as [x|] eqn:He; cbn.
  - destruct (other !! k) as [y|] eqn:Ho.
    + case_decide as Hxy; split.
      * intros [=].
      * intros [[= <-] Hne]. by subst.
      * intros [= <-]. split; [done|]. intros [= ->]. by apply Hxy.
      * by intros [[= <-] _].
    + split; [intros [= <-]; by split|by intros [[= <-] _]].
  - split; [intros [=]|intros [[=] _]].
Qed.

(** A hook that changes nothing yields an empty diff. *)
Lemma Diff_same (e : Environment) : Diff e e = ∅.
Proof.
  apply map_eq. intros k. rewrite lookup_empty.
  apply eq_None_not_Some. intros [v Hv].
  apply lookup_Diff in Hv as [Hk Hne]. done.
Qed.

(** ** The claims about the diff *)

(** C1.  With both dumps readable, [ChangedEnvironment] returns a diff that
    maps [k] to [v] exactly when the decoded after-snapshot maps [k] to [v],
    the decoded before-snapshot has no [k] or another value for it, and [k]
    is not the sentinel; so it holds no name absent from the after-snapshot
    and never the sentinel. *)
Theorem ChangedEnvironment_diff_correct
    (host : Host) (hp : string) (sf : option File) (bf af : File)
    (w : World) (tb ta : string) :
  read_text host w (Name bf) = Some tb ->
  read_text host w (Name af) = Some ta ->
  exists diff w',
    ChangedEnvironment host (mkWrapper hp sf (Some bf) (Some af)) w
    = Done (Some diff, None) w' /\
    (forall k v,
        diff !! k = Some v <->
        FromExport host ta !! k = Some v /\
        (FromExport host tb !! k = None \/
         exists v', FromExport host tb !! k = Some v' /\ v' ≠ v) /\
        k ≠ BUILDKITE_LAST_HOOK_EXIT_STATUS) /\
    (forall k, FromExport host ta !! k = None -> diff !! k = None) /\
    diff !! BUILDKITE_LAST_HOOK_EXIT_STATUS = None.
Proof.
  intros Hb Ha. rewrite ChangedEnvironment_eq, Hb, Ha.
  eexists _, _. split; [reflexivity|].
  assert (Hiff : forall k v,
    Diff (delete BUILDKITE_LAST_HOOK_EXIT_STATUS (FromExport host ta))
         (FromExport host tb) !! k = Some v <->
    FromExport host ta !! k = Some v /\
    (FromExport host tb !! k = None \/
     exists v', FromExport host tb !! k = Some v' /\ v' ≠ v) /\
    k ≠ BUILDKITE_LAST_HOOK_EXIT_STATUS).
  { intros k v. rewrite lookup_Diff, lookup_delete_Some. split.
    - intros [[Hk Hka] Hne]. split_and!; [done| |done].
      destruct (FromExport host tb !! k) as [v'|]; [right|by left].
      exists v'. split; [done|]. by intros ->.
    - intros (Hka & Hkb & Hk). split_and!; [done|done|].
      destruct Hkb as [->|(v' & -> & Hne)]; [done|]. by intros [= ->]. }
  split_and!; [exact Hiff| |].
  - intros k Hk. apply eq_None_not_Some. intros [v Hv].
    apply Hiff in Hv as [Hv _]. congruence.
  - apply eq_None_not_Some. intros [v Hv].
    apply Hiff in Hv as (_ & _ & Hv). done.
Qed.

Lemma ChangedEnvironment_diff_correct_witness :
  exists diff w',
    ChangedEnvironment linux dumps_wrapper
                       (dumps_world before_dump after_dump)
    = Done (Some diff, None) w' /\
    (forall k v,
        diff !! k = Some v <->
        decode_lines after_dump !! k = Some v /\
        (decode_lines before_dump !! k = None \/
         exists v', decode_lines before_dump !! k = Some v' /\ v' ≠ v) /\
        k ≠ BUILDKITE_LAST_HOOK_EXIT_STATUS) /\
    (forall k, decode_lines after_dump !! k = None -> diff !! k = None) /\
    diff !! BUILDKITE_LAST_HOOK_EXIT_STATUS = None.
Proof.
  apply (ChangedEnvironment_diff_correct
           linux "/hooks/pre-command" (Some (mkFile "/tmp/runner" 1))
           (mkFile "/tmp/env-before" 2) (mkFile "/tmp/env-after" 2)
           (dumps_world before_dump after_dump) before_dump after_dump);
    vm_compute; reflexivity.
Defined.

(** The spec's example: the hook appends to PATH and exports FOO. *)
Example ChangedEnvironment_example :
  exists w',
    ChangedEnvironment linux dumps_wrapper
                       (dumps_world before_dump after_dump)
    = Done (Some (<["PATH" := "/usr/bin:/extra"]> (<["FOO" := "bar"]> ∅)),
            None) w'.
Proof. eexists. vm_compute. reflexivity. Qed.

(** *** Malformed lines *)

Lemma lines_not_lf (ls : list string) :
  forallb (all_chars not_lf) ls = true ->
  Forall (fun l => all_chars not_lf l = true) ls.
Proof.
  induction ls as [|l ls IH]; [by constructor|].
  cbn [forallb]. intros [Hl Hls]%andb_prop. constructor; [done|by apply IH].
Qed.

Lemma split_on_join_nonempty (ls : list string) :
  ls ≠ [] -> forallb (all_chars not_lf) ls = true ->
  split_on "010" (join_lines ls) = ls.
Proof.
  destruct ls as [|l ls]; [done|]. intros _ Hls.
  by apply split_on_join_lines, lines_not_lf.
Qed.

(** A malformed line between two declarations leaves the decoder as it
    was. *)
Lemma read_lines_skip (fmt : Format) (pre post : list string)
    (bad : string) :
  snd (read_lines fmt pre) = None ->
  read_line fmt bad = Malformed ->
  read_lines fmt (pre ++ bad :: post) = read_lines fmt (pre ++ post).
Proof.
  unfold read_lines. intros Hpre Hbad. rewrite !foldl_app. cbn [foldl].
  destruct (foldl (decode_line fmt) (∅, None) pre) as [e [nv|]];
    [done|].
  cbn [decode_line]. by rewrite Hbad.
Qed.

Lemma decode_dump_skip (fmt : Format) (pre post : list string)
    (bad : string) :
  forallb (all_chars not_lf) (pre ++ bad :: post) = true ->
  pre ++ post ≠ [] ->
  snd (read_lines fmt pre) = None ->
  read_line fmt bad = Malformed ->
  decode_dump fmt (join_lines (pre ++ bad :: post))
  = decode_dump fmt (join_lines (pre ++ post)).
Proof.
  intros Hlf Hne Hpre Hbad. unfold decode_dump.
  rewrite split_on_join_nonempty; [|by destruct pre|done].
  rewrite split_on_join_nonempty; [|done|].
  - by rewrite read_lines_skip.
  - rewrite forallb_app in Hlf |- *. cbn [forallb] in Hlf.
    apply andb_prop in Hlf as [Hp [_ Hq]%andb_prop].
    by rewrite Hp, Hq.
Qed.

(** The Windows format read by [decode_dump] is the line decoder of the
    concrete hosts. *)
Lemma decode_dump_windows_format (s : string) :
  decode_dump windows_format s = decode_lines s.
Proof.
  unfold decode_dump, decode_lines, read_lines.
  generalize (∅ : Environment). induction (split_on "010" s) as [|l ls IH];
    intros e; [reflexivity|].
  cbn [foldl decode_line read_line windows_format]. unfold name_value.
  destruct (cut_at "=" l) as [[[|c n] v]|]; apply IH.
Qed.

(** C8.  [ChangedEnvironment] never panics on a wrapper with its two dump
    files, and it returns an error exactly when one of the two dumps cannot
    be read; when both can be read it returns the diff of what the decoder
    makes of the two texts, whatever they hold.  With the decoder the spec
    describes, in any format, a line of a dump that is malformed (and is not
    inside a quoted value) is skipped: the result is that of the dump
    without the line. *)
Theorem ChangedEnvironment_error_iff_unreadable
    (host : Host) (hp : string) (sf : option File) (bf af : File)
    (w : World) :
  exists r w',
    ChangedEnvironment host (mkWrapper hp sf (Some bf) (Some af)) w
    = Done r w' /\
    (is_Some (snd r) <->
     read_text host w (Name bf) = None \/
     read_text host w (Name af) = None) /\
    (snd r = None <-> is_Some (fst r)) /\
    (forall tb ta,
        read_text host w (Name bf) = Some tb ->
        read_text host w (Name af) = Some ta ->
        r = (Some (Diff (delete BUILDKITE_LAST_HOOK_EXIT_STATUS
                                (FromExport host ta))
                        (FromExport host tb)), None)) /\
    (forall fmt pre bad post tb ta,
        (forall t, FromExport host t = decode_dump fmt t) ->
        forallb (all_chars not_lf) (pre ++ bad :: post) = true ->
        pre ++ post ≠ [] ->
        snd (read_lines fmt pre) = None ->
        read_line fmt bad = Malformed ->
        read_text host w (Name bf) = Some tb ->
        read_text host w (Name af) = Some ta ->
        (tb = join_lines (pre ++ bad :: post) ->
         r = (Some (Diff (delete BUILDKITE_LAST_HOOK_EXIT_STATUS
                                 (decode_dump fmt ta))
                         (decode_dump fmt (join_lines (pre ++ post)))),
              None)) /\
        (ta = join_lines (pre ++ bad :: post) ->
         r = (Some (Diff (delete BUILDKITE_LAST_HOOK_EXIT_STATUS
                                 (decode_dump fmt
                                    (join_lines (pre ++ post))))
                         (decode_dump fmt tb)),
              None))).
Proof.
  rewrite ChangedEnvironment_eq.
  destruct (read_text host w (Name bf)) as [tb|];
    [destruct (read_text host w (Name af)) as [ta|]|];
    eexists _, _; (split; [reflexivity|]); cbn [fst snd].
  - split_and!.
    + split; [by intros [? [=]]|by intros [[=]|[=]]].
    + split; [by eauto|done].
    + by intros ? ? [= <-] [= <-].
    + intros fmt pre bad post ? ? Hdec Hlf Hne Hpre Hbad [= <-] [= <-].
      rewrite !Hdec.
      split; intros ->; by rewrite decode_dump_skip.
  - split_and!.
    + split; [by right|by eauto].
    + split; [by intros [=]|by intros [? [=]]].
    + by intros ? ? _ [=].
    + by intros ? ? ? ? ? ? _ _ _ _ _ _ [=].
  - split_and!.
    + split; [by left|by eauto].
    + split; [by intros [=]|by intros [? [=]]].
    + by intros ? ? [=].
    + by intros ? ? ? ? ? ? _ _ _ _ _ [=].
Qed.

Lemma ChangedEnvironment_error_iff_unreadable_witness :
  exists w',
    ChangedEnvironment windows_host dumps_wrapper
                       (dumps_world before_dump garbled_after_dump)
    = Done (Some (Diff (delete BUILDKITE_LAST_HOOK_EXIT_STATUS
                               (decode_dump windows_format
                                  (join_lines ["PATH=/usr/bin:/extra";
                                               "HOME=/root"; "FOO=bar"])))
                       (decode_dump windows_format before_dump)),
            None) w'.
Proof.
  destruct (ChangedEnvironment_error_iff_unreadable
              windows_host "/hooks/pre-command" (Some (mkFile "/tmp/runner" 1))
              (mkFile "/tmp/env-before" 2) (mkFile "/tmp/env-after" 2)
              (dumps_world before_dump garbled_after_dump))
    as (r & w' & Hrun & _ & _ & _ & Hskip).
  exists w'. unfold dumps_wrapper. rewrite Hrun. f_equal.
  apply (Hskip windows_format ["PATH=/usr/bin:/extra"; "HOME=/root"]
               "no equals sign here" ["FOO=bar"]
               before_dump garbled_after_dump);
    [reflexivity | reflexivity | discriminate | reflexivity | reflexivity
    | reflexivity | reflexivity | reflexivity].
Defined.

(** The garbled dump of the witness, evaluated: the hook changed PATH and
    exported FOO. *)
Example ChangedEnvironment_skips_garbled_line :
  exists w',
    ChangedEnvironment windows_host dumps_wrapper
                       (dumps_world before_dump garbled_after_dump)
    = Done (Some (<["FOO" := "bar"]> (<["PATH" := "/usr/bin:/extra"]> ∅)),
            None) w'.
Proof. eexists. vm_compute. reflexivity. Qed.

(** The POSIX format: a value of two lines is one value, the line that is no
    export statement is skipped, and the last declaration of FOO wins. *)
Example decode_dump_bash :
  decode_dump export_format bash_dump
  = <["FOO" := "baz"]>
      (<["MOTD" := "line one" +:+ LF +:+ "line two"]> ∅).
Proof. vm_compute. reflexivity. Qed.

(** A dump with lines that are no declarations still decodes, and the diff
    is computed from what is left. *)
Example ChangedEnvironment_tolerates_malformed_dump :
  exists w',
    ChangedEnvironment linux dumps_wrapper
                       (dumps_world before_dump malformed_dump)
    = Done (Some (<["FOO" := "baz"]> ∅), None) w'.
Proof. eexists. vm_compute. reflexivity. Qed.

(** A dump file that is missing is an error, not a panic. *)
Example ChangedEnvironment_missing_dump :
  exists w',
    ChangedEnvironment linux dumps_wrapper empty_world
    = Done (None,
            Some (Errorf_Read "/tmp/env-before"
                              (ErrReadFile "/tmp/env-before"))) w'.
Proof. eexists. vm_compute. reflexivity. Qed.

(** C10.  [ChangedEnvironment] leaves the disk and the open descriptors as
    they are and only calls [ioutil.ReadFile], on the two dump files; so a
    second call returns what the first returned, and [Path] answers the same
    script path, holding the same file, before and after. *)
Theorem ChangedEnvironment_only_reads
    (host : Host) (hp : string) (sf bf af : File) (w : World) :
  exists r w',
    ChangedEnvironment host (mkWrapper hp (Some sf) (Some bf) (Some af)) w
    = Done r w' /\
    disk w' = disk w /\
    open_fds w' = open_fds w /\
    (exists evs,
        trace w' = trace w ++ evs /\
        Forall (fun e => e = EvReadFile (Name bf) \/
                         e = EvReadFile (Name af)) evs) /\
    (exists w'',
        ChangedEnvironment host
          (mkWrapper hp (Some sf) (Some bf) (Some af)) w'
        = Done r w'') /\
    Path (mkWrapper hp (Some sf) (Some bf) (Some af)) w
    = Done (Name sf) w /\
    Path (mkWrapper hp (Some sf) (Some bf) (Some af)) w'
    = Done (Name sf) w' /\
    disk w' !! Name sf = disk w !! Name sf.
Proof.
  pose proof (ChangedEnvironment_eq host hp (Some sf) bf af w) as H1.
  assert (Hlog : forall evs p,
             read_text host (logged evs w) p = read_text host w p) by done.
  destruct (read_text host w (Name bf)) as [tb|] eqn:Hb;
    [destruct (read_text host w (Name af)) as [ta|] eqn:Ha|];
    eexists _, _; (split; [exact H1|]);
    (split_and!; try done;
     [ eexists; split; [reflexivity|];
       repeat apply Forall_cons_2; try apply Forall_nil_2; by eauto
     | eexists; rewrite ChangedEnvironment_eq, !Hlog, Hb, ?Ha;
       reflexivity ]).
Qed.

(** ** The claims about [Close] *)

(** C7, as stated, fails: on a host that refuses the unlinks, [Close] on the
    wrapper the constructor just returned ends with nothing but [tt] to
    return, and the three files are still on disk. *)
Lemma Close_leaves_files_it_cannot_remove :
  newHookScriptWrapper sticky_tmp "/hooks/pre-command" empty_world
  = Done (Some linux_wrapper, None) linux_world /\
  ~ Close_removes_all sticky_tmp linux_wrapper linux_world /\
  exists w',
    Close sticky_tmp linux_wrapper linux_world = Done tt w' /\
    disk w' = disk linux_world /\
    is_Some (disk w' !! linux_runner) /\
    is_Some (disk w' !! linux_before) /\
    is_Some (disk w' !! linux_after).
Proof.
  split; [vm_compute; reflexivity|]. split.
  - intros (w' & Hclose & Hgone).
    unfold linux_wrapper in Hclose. rewrite Close_eq in Hclose.
    injection Hclose as <-.
    specialize (Hgone (mkFile linux_runner 1)).
    assert (Hin : Some (mkFile linux_runner 1) ∈ files_of linux_wrapper)
      by apply list_elem_of_here.
    specialize (Hgone Hin). vm_compute in Hgone. discriminate Hgone.
  - eexists. unfold linux_wrapper. rewrite Close_eq.
    split; [reflexivity|]. split; [reflexivity|].
    split_and!; vm_compute; eauto.
Qed.

Lemma constructed_files (host : Host) (hp : string) (w w' : World)
    (h : hookScriptWrapper) (e : option error) :
  constructed host hp w (Some h, e) w' ->
  exists sf bf af, h = mkWrapper hp (Some sf) (Some bf) (Some af).
Proof. inversion 1; subst; eauto. Qed.

(** C7, amended.  On every wrapper the constructor hands out, in any world,
    [Close] ends without a panic after calling [os.Remove] once on the
    script, the before dump and the after dump, in this order, and drops the
    three results: afterwards one of the three paths is on disk exactly when
    it was on disk before and the OS refused to unlink it, so none is left
    when the three unlinks are allowed; no other file and no descriptor
    changes. *)
Theorem Close_best_effort
    (host : Host) (hp : string) (w0 w1 : World) (h : hookScriptWrapper)
    (e : option error) (w : World) :
  newHookScriptWrapper host hp w0 = Done (Some h, e) w1 ->
  exists sf bf af w',
    files_of h = [Some sf; Some bf; Some af] /\
    Close host h w = Done tt w' /\
    trace w' = trace w ++ [EvRemove (Name sf); EvRemove (Name bf);
                           EvRemove (Name af)] /\
    (forall p, p ∈ [Name sf; Name bf; Name af] ->
               (is_Some (disk w' !! p) <->
                is_Some (disk w !! p) /\ removable host p = false)) /\
    (removable host (Name sf) = true -> removable host (Name bf) = true ->
     removable host (Name af) = true ->
     Close_removes_all host h w) /\
    (forall p, p ∉ [Name sf; Name bf; Name af] ->
               disk w' !! p = disk w !! p) /\
    open_fds w' = open_fds w.
Proof.
  intros Hnew.
  destruct (newHookScriptWrapper_constructed host hp w0)
    as (r & w1' & Heq & Hc).
  rewrite Hnew in Heq. injection Heq as <- <-.
  apply constructed_files in Hc as (sf & bf & af & ->).
  exists sf, bf, af. eexists. rewrite Close_eq.
  pose proof (lookup_unlinked3 host (Name sf) (Name bf) (Name af) (disk w))
    as Hlk.
  split_and!; try reflexivity; cbn [disk open_fds trace].
  - intros p Hp. rewrite Hlk.
    destruct (removable host p) eqn:Hr.
    + rewrite decide_True by (by split).
      split; [intros [? [=]]|intros [_ [=]]].
    + rewrite decide_False by (intros [_ [=]]). by split; [|intros []].
  - intros Hs Hb Ha. eexists. rewrite Close_eq. split; [reflexivity|].
    intros f Hf. cbn [disk]. rewrite Hlk. apply decide_True.
    unfold files_of in Hf. cbn [scriptFile beforeEnvFile afterEnvFile] in Hf.
    rewrite !elem_of_cons, elem_of_nil in Hf. rewrite !elem_of_cons.
    destruct Hf as [[= ->]|[[= ->]|[[= ->]|[]]]]; auto.
  - intros p Hp. rewrite Hlk. apply decide_False. by intros [? _].
Qed.

Example linux_construction :
  newHookScriptWrapper linux "/hooks/pre-command" empty_world
  = Done (Some linux_wrapper, None) linux_world.
Proof. vm_compute. reflexivity. Qed.

Lemma Close_best_effort_witness :
  exists sf bf af w',
    files_of linux_wrapper = [Some sf; Some bf; Some af] /\
    Close linux linux_wrapper linux_world = Done tt w' /\
    trace w' = trace linux_world ++ [EvRemove (Name sf); EvRemove (Name bf);
                                     EvRemove (Name af)] /\
    (forall p, p ∈ [Name sf; Name bf; Name af] ->
               (is_Some (disk w' !! p) <->
                is_Some (disk linux_world !! p) /\
                removable linux p = false)) /\
    (removable linux (Name sf) = true -> removable linux (Name bf) = true ->
     removable linux (Name af) = true ->
     Close_removes_all linux linux_wrapper linux_world) /\
    (forall p, p ∉ [Name sf; Name bf; Name af] ->
               disk w' !! p = disk linux_world !! p) /\
    open_fds w' = open_fds linux_world.
Proof.
  apply (Close_best_effort linux "/hooks/pre-command" empty_world linux_world
           linux_wrapper None linux_world).
  vm_compute. reflexivity.
Defined.

(** ** The claims about the constructor *)

Lemma is_Some_insert (d : gmap string inode) (k p : string) (x : inode) :
  is_Some (<[k := x]> d !! p) <-> p = k \/ is_Some (d !! p).
Proof.
  rewrite lookup_insert_is_Some.
  destruct (decide (k = p)) as [->|Hne]; [tauto|].
  split; [tauto|]. intros [->|H]; [done|tauto].
Qed.

Ltac constructor_cases host hp w r w' Heq Hc :=
  destruct (newHookScriptWrapper_constructed host hp w)
    as (r & w' & Heq & Hc).

(** What the constructor does around [addExecutePermissiontoFile], on every
    host.  It is called at most once.  Whenever the constructor returns a
    wrapper, it was called exactly once, on the script file, as the last
    call, right after [WriteString] was called with the script body and
    [Close] on the script file; the script file is then closed and holds the
    bytes of the script the file system took, and on a return without error
    it is executable and is what [Path] names. *)
Lemma chmod_once_after_write_and_close
    (host : Host) (hp : string) (w : World) :
  exists r w' evs,
    newHookScriptWrapper host hp w = Done r w' /\
    trace w' = trace w ++ evs /\
    length (chmod_calls evs) <= 1 /\
    (fst r = None -> chmod_calls evs = []) /\
    (forall h, fst r = Some h ->
       exists sf bf af absolutePathToHook pre,
         let script := hook_runner_script (GOOS host) (Name bf)
                                          absolutePathToHook (Name af) in
         h = mkWrapper hp (Some sf) (Some bf) (Some af) /\
         Abs host hp = Some absolutePathToHook /\
         evs = pre ++ [EvWrite (Name sf) script; EvClose (Name sf);
                       EvChmod (Name sf)] /\
         chmod_calls pre = [] /\
         chmod_calls evs = [Name sf] /\
         ~ (fd sf ∈ open_fds w') /\
         content <$> (disk w' !! Name sf)
         = Some (accepted host (Name sf) script) /\
         (snd r = None ->
          Path h w' = Done (Name sf) w' /\
          disk w' !! Name sf
          = Some (mkInode (accepted host (Name sf) script) true))).
Proof.
  constructor_cases host hp w r w' Heq Hc.
  exists r, w'. destruct Hc; eexists; (split; [exact Heq|]);
    (split; [reflexivity|]); cbn [fst snd chmod_calls omap length];
    (split; [cbn; lia|]); (split; [done|]); try (by intros ? [=]).
  - intros ? [= <-].
    exists (mkFile s fs), (mkFile b fo), (mkFile a fo), absolutePathToHook,
      [EvTempFile (runner_name host) (Some s);
       EvTempFile before_name (Some b); EvClose b;
       EvTempFile after_name (Some a); EvClose a; EvAbs hp].
    cbn zeta.
    split_and!; try reflexivity; cbn [Name fd disk open_fds]; try done.
    + apply fresh_fd_not_elem.
    + by rewrite lookup_insert_eq.
  - intros ? [= <-].
    exists (mkFile s fs), (mkFile b fo), (mkFile a fo), absolutePathToHook,
      [EvTempFile (runner_name host) (Some s);
       EvTempFile before_name (Some b); EvClose b;
       EvTempFile after_name (Some a); EvClose a; EvAbs hp].
    cbn zeta.
    split_and!; try reflexivity; cbn [Name fd disk open_fds]; try done.
    + apply fresh_fd_not_elem.
    + by rewrite lookup_insert_eq.
    + intros _. split; [reflexivity|]. by rewrite lookup_insert_eq.
Qed.

(** C9, at the failing input.  The file system takes eleven bytes of the
    script and [WriteString] fails with a short write.  The constructor has
    dropped that result: it goes on to close the file and to make it
    executable, and returns the wrapper without an error.  The calls were
    made in the order the claim asks for, and the script file is closed and
    executable, but what [Path] names is not the script: it holds the
    [#!/bin/bash] line and none of the five steps.  The last but one
    conjunct is the [WriteString] call by itself, in the world the first six
    calls of this construction leave, with the error it returns. *)
Theorem newHookScriptWrapper_ignores_short_write :
  exists w',
    newHookScriptWrapper full_disk "/hooks/pre-command" empty_world
    = Done (Some linux_wrapper, None) w' /\
    trace w' = linux_events /\
    chmod_calls (trace w') = [linux_runner] /\
    open_fds w' = [] /\
    Path linux_wrapper w' = Done linux_runner w' /\
    disk w' !! linux_runner = Some (mkInode "#!/bin/bash" true) /\
    file_WriteString full_disk (scriptFile linux_wrapper) linux_script
      (mkWorld (<[linux_runner := empty_file]>
                  (<[linux_after := empty_file]>
                     (<[linux_before := empty_file]> ∅)))
               [1] (take 6 linux_events))
    = Done (Some (ErrShortWrite linux_runner))
           (mkWorld (<[linux_runner := mkInode "#!/bin/bash" false]>
                       (<[linux_after := empty_file]>
                          (<[linux_before := empty_file]> ∅)))
                    [1] (take 7 linux_events)) /\
    linux_script ≠ "#!/bin/bash".
Proof.
  eexists. split; [vm_compute; reflexivity|].
  split_and!; try (vm_compute; reflexivity).
  vm_compute. discriminate.
Qed.

(** What an unresolvable hook path does on every host, whether or not the
    temporary files could be created: the constructor returns an error and
    no wrapper.  If [filepath.Abs] was reached, the error is the
    path-resolution error and exactly the three temporary files of this
    attempt were created; otherwise a temporary file could not be created.
    Either way the files on disk are those that were there plus the ones this
    attempt created, and nothing was written, made executable or removed. *)
Lemma unresolvable_path_yields_no_wrapper
    (host : Host) (hp : string) (w : World) :
  Abs host hp = None ->
  exists e w' evs,
    newHookScriptWrapper host hp w = Done (None, Some e) w' /\
    trace w' = trace w ++ evs /\
    (EvAbs hp ∈ evs ->
     e = Errorf_AbsolutePath hp (ErrAbs hp) /\
     length (created_files evs) = 3) /\
    (EvAbs hp ∉ evs -> exists n, e = ErrTempFile n) /\
    (forall p, is_Some (disk w' !! p) <->
               is_Some (disk w !! p) \/ p ∈ created_files evs) /\
    length (created_files evs) <= 3 /\
    write_calls evs = [] /\ chmod_calls evs = [] /\ remove_calls evs = [].
Proof.
  intros Habs. constructor_cases host hp w r w' Heq Hc.
  destruct Hc; try congruence; eexists _, _, _;
    (split; [exact Heq|]); (split; [reflexivity|]);
    simpl (created_files _); simpl (write_calls _); simpl (chmod_calls _);
    simpl (remove_calls _); cbn [disk length];
    rewrite ?elem_of_cons, ?elem_of_nil.
  - split_and!; try done; try lia.
    + by intros [[=]|[]].
    + by eauto.
    + intros p. rewrite elem_of_nil. tauto.
  - split_and!; try done; try lia.
    + by intros [[=]|[[=]|[]]].
    + by eauto.
    + intros p. rewrite is_Some_insert, elem_of_cons, elem_of_nil. tauto.
  - split_and!; try done; try lia.
    + by intros [[=]|[[=]|[[=]|[[=]|[]]]]].
    + by eauto.
    + intros p. rewrite !is_Some_insert, !elem_of_cons, elem_of_nil. tauto.
  - split_and!; try done; try lia.
    + intros Hnin. exfalso. apply Hnin. auto 10.
    + intros p. rewrite !is_Some_insert, !elem_of_cons, elem_of_nil. tauto.
Qed.

(** What a successful [shell.TempFileWithExtension] did. *)
Lemma TempFileWithExtension_created (host : Host) (filename : string)
    (w w1 : World) (f : File) (e : option error) :
  TempFileWithExtension host filename w = Done (Some f, e) w1 ->
  e = None /\
  disk w !! Name f = None /\
  disk w1 = <[Name f := empty_file]> (disk w) /\
  trace w1 = trace w ++ [EvTempFile filename (Some (Name f))].
Proof.
  unfold TempFileWithExtension.
  destruct (temp_path host w filename) as [p|]; [|by intros [=]].
  destruct (disk w !! p) eqn:Hp; [by intros [=]|].
  intros [= <- <- <-]. by cbn.
Qed.

(** [Close] of a file leaves the disk alone. *)
Lemma file_Close_frame (f : File) (w w1 : World) (e : option error) :
  file_Close (Some f) w = Done e w1 ->
  disk w1 = disk w /\ trace w1 = trace w ++ [EvClose (Name f)].
Proof.
  unfold file_Close, bind, emit. cbn [open_fds disk trace].
  case_decide; by intros [= <- <-].
Qed.

(** C6.  The constructor creates the three temporary files (and closes the
    two dump files) before it resolves the hook path.  When these five calls
    succeed and the hook path cannot be made absolute, the constructor
    returns no wrapper and the path-resolution error, which carries the hook
    path; [filepath.Abs] was its last call, and nothing was written, made
    executable or removed.  At that moment the three temporary files of this
    attempt are on disk, empty, and every other path is as it was before:
    no other file was created. *)
Theorem path_resolution_failure (host : Host) (hp : string)
    (w w1 w2 w3 w4 w5 : World) (sf bf af : File) (e2 e4 : option error) :
  TempFileWithExtension host (runner_name host) w = Done (Some sf, None) w1 ->
  TempFileWithExtension host before_name w1 = Done (Some bf, None) w2 ->
  file_Close (Some bf) w2 = Done e2 w3 ->
  TempFileWithExtension host after_name w3 = Done (Some af, None) w4 ->
  file_Close (Some af) w4 = Done e4 w5 ->
  Abs host hp = None ->
  exists w',
    newHookScriptWrapper host hp w
    = Done (None, Some (Errorf_AbsolutePath hp (ErrAbs hp))) w' /\
    trace w' = trace w ++ [EvTempFile (runner_name host) (Some (Name sf));
                           EvTempFile before_name (Some (Name bf));
                           EvClose (Name bf);
                           EvTempFile after_name (Some (Name af));
                           EvClose (Name af);
                           EvAbs hp] /\
    (forall p, p ∈ [Name sf; Name bf; Name af] ->
               disk w !! p = None /\ disk w' !! p = Some empty_file) /\
    (forall p, ~ (p ∈ [Name sf; Name bf; Name af]) ->
               disk w' !! p = disk w !! p).
Proof.
  intros H1 H2 H3 H4 H5 Habs.
  exists (logged [EvAbs hp] w5). split.
  - unfold newHookScriptWrapper.
    rewrite (bind_Done _ _ _ _ _ H1). cbn [beforeEnvFile afterEnvFile].
    rewrite (bind_Done _ _ _ _ _ H2).
    cbn [scriptFile beforeEnvFile afterEnvFile].
    rewrite (bind_Done _ _ _ _ _ H3).
    rewrite (bind_Done _ _ _ _ _ H4).
    cbn [scriptFile beforeEnvFile afterEnvFile].
    rewrite (bind_Done _ _ _ _ _ H5).
    unfold filepath_Abs. rewrite Habs. reflexivity.
  - apply TempFileWithExtension_created in H1 as (_ & Hs & Hd1 & Ht1).
    apply TempFileWithExtension_created in H2 as (_ & Hb & Hd2 & Ht2).
    apply file_Close_frame in H3 as [Hd3 Ht3].
    apply TempFileWithExtension_created in H4 as (_ & Ha & Hd4 & Ht4).
    apply file_Close_frame in H5 as [Hd5 Ht5].
    rewrite Hd3, Hd2, Hd1 in Ha. rewrite Hd1 in Hb.
    apply lookup_insert_None in Hb as [Hb Hsb].
    apply lookup_insert_None in Ha as [Ha Hba].
    apply lookup_insert_None in Ha as [Ha Hsa].
    cbn [logged trace disk].
    rewrite Ht5, Ht4, Ht3, Ht2, Ht1, Hd5, Hd4, Hd3, Hd2, Hd1.
    rewrite <- !(assoc_L (++)). cbn [app].
    split; [reflexivity|]. split.
    + intros p. rewrite !elem_of_cons, elem_of_nil.
      intros [->|[->|[->|[]]]]; (split; [done|]).
      * rewrite lookup_insert_ne by done. rewrite lookup_insert_ne by done.
        by rewrite lookup_insert_eq.
      * rewrite lookup_insert_ne by done. by rewrite lookup_insert_eq.
      * by rewrite lookup_insert_eq.
    + intros p. rewrite !elem_of_cons, elem_of_nil. intros Hp.
      rewrite !lookup_insert_ne; [done|intros <-; tauto..].
Qed.

Lemma path_resolution_failure_witness :
  exists w',
    newHookScriptWrapper no_cwd "hooks/pre-command" empty_world
    = Done (None,
            Some (Errorf_AbsolutePath "hooks/pre-command"
                                      (ErrAbs "hooks/pre-command"))) w' /\
    trace w' = trace empty_world
               ++ [EvTempFile (runner_name no_cwd) (Some linux_runner);
                   EvTempFile before_name (Some linux_before);
                   EvClose linux_before;
                   EvTempFile after_name (Some linux_after);
                   EvClose linux_after;
                   EvAbs "hooks/pre-command"] /\
    (forall p, p ∈ [linux_runner; linux_before; linux_after] ->
               disk empty_world !! p = None /\
               disk w' !! p = Some empty_file) /\
    (forall p, ~ (p ∈ [linux_runner; linux_before; linux_after]) ->
               disk w' !! p = disk empty_world !! p).
Proof.
  eapply (path_resolution_failure
            no_cwd "hooks/pre-command" empty_world _ _ _ _ _
            (mkFile linux_runner 1) (mkFile linux_before 2)
            (mkFile linux_after 2));
    vm_compute; reflexivity.
Defined.

(** On that host the three temporary files are on disk when the error is
    returned, and the caller gets no wrapper to close. *)
Example path_resolution_failure_run :
  newHookScriptWrapper no_cwd "hooks/pre-command" empty_world
  = Done (None,
          Some (Errorf_AbsolutePath "hooks/pre-command"
                                    (ErrAbs "hooks/pre-command")))
         (mkWorld (<[linux_runner := empty_file]>
                     (<[linux_after := empty_file]>
                        (<[linux_before := empty_file]> ∅)))
                  [1]
                  [ EvTempFile "buildkite-agent-bootstrap-hook-runner"
                               (Some linux_runner);
                    EvTempFile before_name (Some linux_before);
                    EvClose linux_before;
                    EvTempFile after_name (Some linux_after);
                    EvClose linux_after;
                    EvAbs "hooks/pre-command" ]).
Proof. vm_compute. reflexivity. Qed.

(** C2, at the failing input.  The second temporary file cannot be created:
    the constructor returns the error with a nil wrapper, having removed
    nothing; the script file it created is still on disk and its descriptor
    is still open, out of the caller's reach. *)
Theorem newHookScriptWrapper_leaks_script_file :
  exists w',
    newHookScriptWrapper one_temp_file "/hooks/pre-command" empty_world
    = Done (None, Some (ErrTempFile before_name)) w' /\
    disk w' !! linux_runner = Some empty_file /\
    open_fds w' = [1] /\
    remove_calls (trace w') = [] /\
    created_files (trace w') = [linux_runner].
Proof. eexists. split; [vm_compute; reflexivity|]. by vm_compute. Qed.

(** The same on every host: a construction that returns no wrapper removes
    nothing, and unless the very first temporary file failed it leaves the
    script file on disk with its descriptor open. *)
Lemma nil_wrapper_keeps_files (host : Host) (hp : string) (w w' : World)
    (e : option error) :
  newHookScriptWrapper host hp w = Done (None, e) w' ->
  exists evs,
    trace w' = trace w ++ evs /\
    remove_calls evs = [] /\
    (forall p, p ∈ created_files evs -> is_Some (disk w' !! p)) /\
    (created_files evs ≠ [] ->
     open_fds w' = fresh_fd (open_fds w) :: open_fds w).
Proof.
  intros Hnew. constructor_cases host hp w r w1 Heq Hc.
  rewrite Hnew in Heq. injection Heq as <- <-.
  inversion Hc; subst; eexists; (split; [reflexivity|]);
    simpl (created_files _); simpl (remove_calls _); cbn [disk open_fds];
    (split_and!; [done| |done]);
    intros p; rewrite ?elem_of_cons, elem_of_nil, ?is_Some_insert; tauto.
Qed.

(** * Further properties of the wrapper *)

(** ** What the constructor leaves alone *)

Ltac frame_leaf :=
  eexists _, _; split; [reflexivity|]; cbn [fst snd disk]; split;
  [ intros ? [? ?]; rewrite ?lookup_insert_ne by (intros ->; congruence);
    reflexivity
  | try (by intros ? ? [=]) ].

(** The names the constructor gives its three files were free on the disk it
    started from, and no file of that disk is touched. *)
Lemma newHookScriptWrapper_frame (host : Host) (hookPath : string)
    (w : World) :
  exists r w',
    newHookScriptWrapper host hookPath w = Done r w' /\
    (forall p, is_Some (disk w !! p) -> disk w' !! p = disk w !! p) /\
    (forall h f, fst r = Some h -> Some f ∈ files_of h ->
                 disk w !! Name f = None).
Proof.
  unfold newHookScriptWrapper. exec_step.
  destruct (temp_path host w _) as [s|] eqn:Hs; [|frame_leaf].
  destruct (disk w !! s) eqn:Hds; [frame_leaf|].
  norm_world.
  match goal with |- context [temp_path ?h ?w ?n] =>
    destruct (temp_path h w n) as [b|] eqn:Hb end; [|frame_leaf].
  match goal with |- context [match ?m !! b with _ => _ end] =>
    destruct (m !! b) eqn:Hdb end; [frame_leaf|].
  norm_world.
  apply lookup_insert_None in Hdb as [Hdb Hsb].
  rewrite decide_True by set_solver.
  rewrite close_fresh by apply fresh_fd_not_elem.
  norm_world.
  match goal with |- context [temp_path ?h ?w ?n] =>
    destruct (temp_path h w n) as [a|] eqn:Ha end; [|frame_leaf].
  match goal with |- context [match ?m !! a with _ => _ end] =>
    destruct (m !! a) eqn:Hda end; [frame_leaf|].
  norm_world.
  apply lookup_insert_None in Hda as [Hda Hba].
  apply lookup_insert_None in Hda as [Hda Hsa].
  rewrite decide_True by set_solver.
  rewrite close_fresh by apply fresh_fd_not_elem.
  norm_world.
  destruct (Abs host hookPath) as [p|] eqn:Habs; [|frame_leaf].
  norm_world.
  rewrite decide_True by set_solver.
  rewrite lookup_insert_ne by done. rewrite lookup_insert_ne by done.
  rewrite lookup_insert_eq.
  norm_world.
  rewrite decide_True by set_solver.
  rewrite close_fresh by apply fresh_fd_not_elem.
  norm_world. rewrite lookup_insert_eq.
  destruct (chmod_ok host s) eqn:Hch; norm_world; frame_leaf;
    intros hw f [= <-]; unfold files_of;
    cbn [scriptFile beforeEnvFile afterEnvFile];
    rewrite !elem_of_cons, elem_of_nil;
    intros [[= ->]|[[= ->]|[[= ->]|[]]]]; done.
Qed.

(** Every run of the constructor is one of the six runs of [constructed],
    on names that were free, with the old files left as they were. *)
Lemma newHookScriptWrapper_inv (host : Host) (hp : string) (w w' : World)
    (r : result) :
  newHookScriptWrapper host hp w = Done r w' ->
  constructed host hp w r w' /\
  (forall p, is_Some (disk w !! p) -> disk w' !! p = disk w !! p) /\
  (forall h f, fst r = Some h -> Some f ∈ files_of h ->
               disk w !! Name f = None).
Proof.
  intros Hnew.
  destruct (newHookScriptWrapper_constructed host hp w)
    as (r1 & w1 & Heq1 & Hc).
  destruct (newHookScriptWrapper_frame host hp w)
    as (r2 & w2 & Heq2 & Hframe & Hfresh).
  rewrite Hnew in Heq1, Heq2.
  injection Heq1 as <- <-. injection Heq2 as <- <-. done.
Qed.

Lemma elem_of_files_of (hp : string) (sf bf af f : File) :
  Some f ∈ files_of (mkWrapper hp (Some sf) (Some bf) (Some af)) <->
  f = sf \/ f = bf \/ f = af.
Proof.
  unfold files_of. cbn [scriptFile beforeEnvFile afterEnvFile].
  rewrite !elem_of_cons, elem_of_nil.
  split.
  - intros [[= ->]|[[= ->]|[[= ->]|[]]]]; auto.
  - intros [->|[->| ->]]; auto.
Qed.

(** X1.  The constructor never panics and never returns nil together with a
    nil error.  A wrapper it returns keeps the hook path as given and has its
    three files set; it comes with an error only when the script could not be
    made executable, and that error is the collaborator's own. *)
Theorem newHookScriptWrapper_result_shape
    (host : Host) (hp : string) (w : World) :
  exists r w',
    newHookScriptWrapper host hp w = Done r w' /\
    (fst r = None -> is_Some (snd r)) /\
    (forall h, fst r = Some h ->
       exists sf bf af,
         h = mkWrapper hp (Some sf) (Some bf) (Some af) /\
         (snd r = None <-> chmod_ok host (Name sf) = true) /\
         (forall e, snd r = Some e -> e = ErrChmod (Name sf))).
Proof.
  destruct (newHookScriptWrapper_constructed host hp w)
    as (r & w' & Heq & Hc).
  exists r, w'. split; [exact Heq|].
  destruct Hc; cbn [fst snd]; (split; [by eauto|]);
    try (by intros ? [=]); intros ? [= <-]; eexists _, _, _;
    (split; [reflexivity|]); cbn [Name]; split.
  - split; [by intros [=]|congruence].
  - by intros ? [= <-].
  - by split.
  - by intros ? [=].
Qed.

(** X2.  A construction that returns a wrapper leaves no descriptor open:
    the open descriptors are those of before, and none of the wrapper's
    three files is among them.  A construction that returns no wrapper
    leaves at most one more descriptor open than before. *)
Theorem newHookScriptWrapper_closes_its_files
    (host : Host) (hp : string) (w : World) :
  exists r w',
    newHookScriptWrapper host hp w = Done r w' /\
    (forall h, fst r = Some h ->
       open_fds w' = open_fds w /\
       forall f, Some f ∈ files_of h -> ~ (fd f ∈ open_fds w')) /\
    (fst r = None ->
     exists leaked, open_fds w' = leaked ++ open_fds w /\ length leaked <= 1).
Proof.
  destruct (newHookScriptWrapper_constructed host hp w)
    as (r & w' & Heq & Hc).
  exists r, w'. split; [exact Heq|].
  destruct Hc; cbn [fst snd open_fds]; split;
    try (by intros ? [=]); try (by intros [=]).
  - intros _. exists []. split; [done|cbn; lia].
  - intros _. exists [fresh_fd (open_fds w)]. split; [done|cbn; lia].
  - intros _. exists [fresh_fd (open_fds w)]. split; [done|cbn; lia].
  - intros _. exists [fresh_fd (open_fds w)]. split; [done|cbn; lia].
  - intros ? [= <-]. split; [done|]. intros f Hf.
    apply elem_of_files_of in Hf as [->|[->| ->]]; cbn [fd]; subst fs fo.
    + apply fresh_fd_not_elem.
    + intros Hin. apply (fresh_fd_not_elem (fresh_fd (open_fds w) :: open_fds w)).
      by apply list_elem_of_further.
    + intros Hin. apply (fresh_fd_not_elem (fresh_fd (open_fds w) :: open_fds w)).
      by apply list_elem_of_further.
  - intros ? [= <-]. split; [done|]. intros f Hf.
    apply elem_of_files_of in Hf as [->|[->| ->]]; cbn [fd]; subst fs fo.
    + apply fresh_fd_not_elem.
    + intros Hin. apply (fresh_fd_not_elem (fresh_fd (open_fds w) :: open_fds w)).
      by apply list_elem_of_further.
    + intros Hin. apply (fresh_fd_not_elem (fresh_fd (open_fds w) :: open_fds w)).
      by apply list_elem_of_further.
Qed.

Lemma constructed_dumps (host : Host) (hp : string) (w w' : World)
    (h : hookScriptWrapper) (e : option error) :
  constructed host hp w (Some h, e) w' ->
  exists sf bf af,
    h = mkWrapper hp (Some sf) (Some bf) (Some af) /\
    NoDup [Name sf; Name bf; Name af] /\
    is_Some (disk w' !! Name sf) /\
    disk w' !! Name bf = Some empty_file /\
    disk w' !! Name af = Some empty_file /\
    (forall p, p ∉ [Name sf; Name bf; Name af] ->
               disk w' !! p = disk w !! p) /\
    open_fds w' = open_fds w.
Proof.
  inversion 1; subst; eexists _, _, _; (split; [reflexivity|]);
    cbn [Name disk open_fds].
  all: split_and!; [ | | | | |done].
  all: try (rewrite ?lookup_insert_eq; by eauto).
  all: try (repeat apply NoDup_cons_2; rewrite ?elem_of_cons, ?elem_of_nil;
            try apply NoDup_nil_2; intuition congruence).
  all: try (rewrite ?(lookup_insert_ne _ s b) by done;
            rewrite ?(lookup_insert_ne _ s a) by done;
            rewrite ?(lookup_insert_ne _ a b) by done;
            by rewrite lookup_insert_eq).
  all: intros p; rewrite !elem_of_cons, elem_of_nil; intros Hp;
    rewrite !lookup_insert_ne by (intros ->; apply Hp; auto); done.
Qed.

(** X3.  The constructor touches no file that was already there.  When it
    returns a wrapper, the three paths of the wrapper are pairwise different
    and were not on disk before, and the two dump files are on disk, empty
    and not executable. *)
Theorem newHookScriptWrapper_preserves_disk
    (host : Host) (hp : string) (w : World) :
  exists r w',
    newHookScriptWrapper host hp w = Done r w' /\
    (forall p, is_Some (disk w !! p) -> disk w' !! p = disk w !! p) /\
    (forall h, fst r = Some h ->
       exists sf bf af,
         files_of h = [Some sf; Some bf; Some af] /\
         NoDup [Name sf; Name bf; Name af] /\
         (forall p, p ∈ [Name sf; Name bf; Name af] ->
                    disk w !! p = None) /\
         disk w' !! Name bf = Some (mkInode "" false) /\
         disk w' !! Name af = Some (mkInode "" false)).
Proof.
  destruct (newHookScriptWrapper_constructed host hp w)
    as (r & w' & Heq & _).
  exists r, w'. split; [exact Heq|].
  apply newHookScriptWrapper_inv in Heq as (Hc & Hframe & Hfresh).
  split; [exact Hframe|]. intros h Hh. destruct r as [oh e].
  cbn [fst] in Hh. subst oh.
  destruct (constructed_dumps _ _ _ _ _ _ Hc)
    as (sf & bf & af & -> & Hnd & _ & Hb & Ha & _).
  exists sf, bf, af. split_and!; try done.
  intros p. rewrite !elem_of_cons, elem_of_nil.
  intros [->|[->|[->|[]]]]; apply (Hfresh _ _ eq_refl);
    apply elem_of_files_of; auto.
Qed.

(** X4.  Constructing a wrapper and closing it is a round trip on the disk:
    when the OS allows the three unlinks, [Close] on the wrapper the
    constructor returned (with or without the chmod error) leaves exactly
    the files and the open descriptors there were before the construction. *)
Theorem construct_then_Close_restores_disk
    (host : Host) (hp : string) (w w1 : World) (h : hookScriptWrapper)
    (e : option error) :
  newHookScriptWrapper host hp w = Done (Some h, e) w1 ->
  (forall f, Some f ∈ files_of h -> removable host (Name f) = true) ->
  exists w2,
    Close host h w1 = Done tt w2 /\
    disk w2 = disk w /\
    open_fds w2 = open_fds w.
Proof.
  intros Hnew Hrm.
  apply newHookScriptWrapper_inv in Hnew as (Hc & _ & Hfresh).
  destruct (constructed_dumps _ _ _ _ _ _ Hc)
    as (sf & bf & af & -> & _ & _ & _ & _ & Hother & Hfds).
  eexists. rewrite Close_eq. split; [reflexivity|].
  cbn [disk open_fds]. split; [|exact Hfds].
  apply map_eq. intros p. rewrite lookup_unlinked3.
  destruct (decide (p ∈ [Name sf; Name bf; Name af])) as [Hin|Hnin].
  - assert (Hf : exists f, Some f ∈ files_of
                               (mkWrapper hp (Some sf) (Some bf) (Some af))
                           /\ p = Name f).
    { rewrite !elem_of_cons, elem_of_nil in Hin.
      destruct Hin as [->|[->|[->|[]]]]; eexists; split;
        try reflexivity; apply elem_of_files_of; auto. }
    destruct Hf as (f & Hf & ->).
    rewrite decide_True by (split; [done|by apply Hrm]).
    symmetry. by apply (Hfresh _ _ eq_refl).
  - rewrite decide_False by (by intros [? _]). by apply Hother.
Qed.

Lemma construct_then_Close_restores_disk_witness :
  exists w2,
    Close linux linux_wrapper linux_world = Done tt w2 /\
    disk w2 = disk empty_world /\
    open_fds w2 = open_fds empty_world.
Proof.
  apply (construct_then_Close_restores_disk
           linux "/hooks/pre-command" empty_world linux_world linux_wrapper
           None).
  - vm_compute. reflexivity.
  - intros f _. reflexivity.
Defined.

(** X5.  A second [Close] is harmless: it ends without a panic and leaves
    the disk and the descriptors as the first [Close] left them. *)
Theorem Close_twice
    (host : Host) (hp : string) (sf bf af : File) (w : World) :
  exists w1 w2,
    Close host (mkWrapper hp (Some sf) (Some bf) (Some af)) w = Done tt w1 /\
    Close host (mkWrapper hp (Some sf) (Some bf) (Some af)) w1
    = Done tt w2 /\
    disk w2 = disk w1 /\
    open_fds w2 = open_fds w1.
Proof.
  eexists _, _. rewrite !Close_eq. split; [reflexivity|].
  split; [reflexivity|]. cbn [disk open_fds]. split; [|done].
  apply map_eq. intros p. rewrite !lookup_unlinked3.
  by case_decide.
Qed.

(** ** The diff before, between and after *)

Lemma read_text_unlinked3 (host : Host) (w : World) (s b a : string)
    (fds : list nat) (t : list event) (p : string) :
  p ∈ [s; b; a] -> removable host p = true ->
  read_text host
    (mkWorld (unlinked host a (unlinked host b (unlinked host s (disk w))))
             fds t) p = None.
Proof.
  intros Hin Hrm. unfold read_text. cbn [disk].
  rewrite lookup_unlinked3. by rewrite decide_True.
Qed.

(** X6.  [ChangedEnvironment] is of no use after [Close]: once [Close] has
    removed one of the two dump files, it returns an error and no diff. *)
Theorem ChangedEnvironment_after_Close
    (host : Host) (hp : string) (sf bf af : File) (w : World) :
  removable host (Name bf) = true \/ removable host (Name af) = true ->
  exists w1 e w2,
    Close host (mkWrapper hp (Some sf) (Some bf) (Some af)) w = Done tt w1 /\
    ChangedEnvironment host (mkWrapper hp (Some sf) (Some bf) (Some af)) w1
    = Done (None, Some e) w2.
Proof.
  intros Hrm.
  exists (mkWorld (unlinked host (Name af)
                     (unlinked host (Name bf)
                        (unlinked host (Name sf) (disk w))))
                  (open_fds w)
                  (trace w ++ [EvRemove (Name sf); EvRemove (Name bf);
                               EvRemove (Name af)])).
  rewrite Close_eq, ChangedEnvironment_eq.
  destruct Hrm as [Hb|Ha].
  - rewrite (read_text_unlinked3 host w _ _ _ _ _ (Name bf))
      by (rewrite ?elem_of_cons; auto).
    eexists _, _. split; reflexivity.
  - rewrite (read_text_unlinked3 host w _ _ _ _ _ (Name af))
      by (rewrite ?elem_of_cons; auto).
    match goal with |- context [match ?x with _ => _ end] => destruct x end;
      eexists _, _; split; reflexivity.
Qed.

Lemma ChangedEnvironment_after_Close_witness :
  exists w1 e w2,
    Close linux linux_wrapper linux_world = Done tt w1 /\
    ChangedEnvironment linux linux_wrapper w1 = Done (None, Some e) w2.
Proof.
  apply (ChangedEnvironment_after_Close
           linux "/hooks/pre-command" (mkFile linux_runner 1)
           (mkFile linux_before 2) (mkFile linux_after 2) linux_world).
  left. reflexivity.
Defined.

(** X7.  The error of [ChangedEnvironment] names the dump that could not be
    read, and the before dump comes first: when it cannot be read the after
    dump is not even opened; when only the after dump cannot be read, both
    were opened and the error names the after dump. *)
Theorem ChangedEnvironment_names_the_unreadable_dump
    (host : Host) (hp : string) (sf : option File) (bf af : File)
    (w : World) :
  exists r w',
    ChangedEnvironment host (mkWrapper hp sf (Some bf) (Some af)) w
    = Done r w' /\
    (read_text host w (Name bf) = None ->
     r = (None, Some (Errorf_Read (Name bf) (ErrReadFile (Name bf)))) /\
     trace w' = trace w ++ [EvReadFile (Name bf)]) /\
    (is_Some (read_text host w (Name bf)) ->
     trace w' = trace w ++ [EvReadFile (Name bf); EvReadFile (Name af)]) /\
    (is_Some (read_text host w (Name bf)) ->
     read_text host w (Name af) = None ->
     r = (None, Some (Errorf_Read (Name af) (ErrReadFile (Name af))))).
Proof.
  rewrite ChangedEnvironment_eq.
  destruct (read_text host w (Name bf)) as [tb|];
    [destruct (read_text host w (Name af)) as [ta|]|];
    eexists _, _; (split; [reflexivity|]); cbn [trace logged];
    split_and!; try done; try (by intros [? [=]]).
Qed.

Lemma Diff_delete_unchanged (key : string) (after before : Environment) :
  (forall k, k ≠ key -> after !! k = before !! k) ->
  Diff (delete key after) before = ∅.
Proof.
  intros Hsame. apply map_eq. intros k. rewrite lookup_empty.
  apply eq_None_not_Some. intros [v Hv].
  apply lookup_Diff in Hv as [Hk Hne].
  apply lookup_delete_Some in Hk as [Hkey Hk].
  rewrite Hsame in Hk by done. done.
Qed.

(** X8.  A hook that changes no variable yields an empty diff: when the two
    dumps decode to snapshots that agree on every name but the sentinel
    (which the wrapper script itself adds to the after dump on Windows),
    [ChangedEnvironment] returns the empty diff and no error. *)
Theorem ChangedEnvironment_unchanged_environment
    (host : Host) (hp : string) (sf : option File) (bf af : File)
    (w : World) (tb ta : string) :
  read_text host w (Name bf) = Some tb ->
  read_text host w (Name af) = Some ta ->
  (forall k, k ≠ BUILDKITE_LAST_HOOK_EXIT_STATUS ->
             FromExport host ta !! k = FromExport host tb !! k) ->
  exists w',
    ChangedEnvironment host (mkWrapper hp sf (Some bf) (Some af)) w
    = Done (Some ∅, None) w'.
Proof.
  intros Hb Ha Hsame. rewrite ChangedEnvironment_eq, Hb, Ha.
  rewrite Diff_delete_unchanged by done. by eexists.
Qed.

Lemma ChangedEnvironment_unchanged_environment_witness :
  exists w',
    ChangedEnvironment linux dumps_wrapper
      (dumps_world before_dump
         (before_dump +:+ LF +:+ "BUILDKITE_LAST_HOOK_EXIT_STATUS=0"))
    = Done (Some ∅, None) w'.
Proof.
  apply (ChangedEnvironment_unchanged_environment
           linux "/hooks/pre-command" (Some (mkFile "/tmp/runner" 1))
           (mkFile "/tmp/env-before" 2) (mkFile "/tmp/env-after" 2)
           (dumps_world before_dump
              (before_dump +:+ LF +:+ "BUILDKITE_LAST_HOOK_EXIT_STATUS=0"))
           before_dump
           (before_dump +:+ LF +:+ "BUILDKITE_LAST_HOOK_EXIT_STATUS=0")).
  - vm_compute. reflexivity.
  - vm_compute. reflexivity.
  - intros k Hk.
    change (FromExport linux) with decode_lines.
    assert (Hdec : decode_lines
              (before_dump +:+ LF +:+ "BUILDKITE_LAST_HOOK_EXIT_STATUS=0")
            = <[BUILDKITE_LAST_HOOK_EXIT_STATUS := "0"]>
                (decode_lines before_dump)) by (vm_compute; reflexivity).
    rewrite Hdec. by rewrite lookup_insert_ne.
Defined.

(** X9.  Asked before the hook has run, [ChangedEnvironment] reports no
    change: on the wrapper and the world the constructor returned, with the
    two dumps readable, it returns the empty diff and no error. *)
Theorem ChangedEnvironment_before_the_hook_runs
    (host : Host) (hp : string) (w w1 : World) (h : hookScriptWrapper)
    (e : option error) :
  newHookScriptWrapper host hp w = Done (Some h, e) w1 ->
  (forall f, Some f ∈ files_of h -> readable host (Name f) = true) ->
  exists w2, ChangedEnvironment host h w1 = Done (Some ∅, None) w2.
Proof.
  intros Hnew Hrd.
  apply newHookScriptWrapper_inv in Hnew as (Hc & _ & _).
  destruct (constructed_dumps _ _ _ _ _ _ Hc)
    as (sf & bf & af & -> & _ & _ & Hb & Ha & _).
  rewrite ChangedEnvironment_eq. unfold read_text. rewrite Hb, Ha.
  rewrite !Hrd by (apply elem_of_files_of; auto).
  cbn [content empty_file].
  rewrite Diff_delete_unchanged by done. by eexists.
Qed.

Lemma ChangedEnvironment_before_the_hook_runs_witness :
  exists w2,
    ChangedEnvironment linux linux_wrapper linux_world
    = Done (Some ∅, None) w2.
Proof.
  apply (ChangedEnvironment_before_the_hook_runs
           linux "/hooks/pre-command" empty_world linux_world linux_wrapper
           None).
  - vm_compute. reflexivity.
  - intros f _. reflexivity.
Defined.

(** ** The script on disk *)

(** X10.  What the constructor leaves at [Path] after a construction without
    error: an executable file that holds the bytes the file system took of
    the script for the resolved hook path and the wrapper's own two dump
    files, the files [ChangedEnvironment] reads.  When the write was not
    cut short it is the whole script, and for paths without a character that
    is special between double quotes it reads as the five steps on these
    paths. *)
Theorem constructed_script_on_disk
    (host : Host) (hp : string) (w w' : World) (h : hookScriptWrapper)
    (absolutePathToHook : string) :
  newHookScriptWrapper host hp w = Done (Some h, None) w' ->
  Abs host hp = Some absolutePathToHook ->
  exists sf bf af,
    let script := hook_runner_script (GOOS host) (Name bf)
                                     absolutePathToHook (Name af) in
    h = mkWrapper hp (Some sf) (Some bf) (Some af) /\
    Path h w' = Done (Name sf) w' /\
    disk w' !! Name sf
    = Some (mkInode (accepted host (Name sf) script) true) /\
    (write_room host (Name sf) = None ->
     disk w' !! Name sf = Some (mkInode script true)) /\
    (path_ok (dialect_of (GOOS host)) (Name bf) = true ->
     path_ok (dialect_of (GOOS host)) absolutePathToHook = true ->
     path_ok (dialect_of (GOOS host)) (Name af) = true ->
     parse_script (dialect_of (GOOS host)) script
     = Some [ DumpEnv (Name bf);
              SourceHook absolutePathToHook;
              CaptureStatus BUILDKITE_LAST_HOOK_EXIT_STATUS;
              DumpEnv (Name af);
              ExitWith BUILDKITE_LAST_HOOK_EXIT_STATUS ]).
Proof.
  intros Hnew Habs.
  apply newHookScriptWrapper_inv in Hnew as (Hcon & _ & _).
  inversion Hcon as [| | | | |s b a abs' Hs Hsb Hsa Hba Habs' Hch]; subst.
  rewrite Habs in Habs'. injection Habs' as <-.
  exists (mkFile s fs), (mkFile b fo), (mkFile a fo).
  cbn zeta. unfold Path. cbn [scriptFile file_name Name disk].
  rewrite lookup_insert_eq. split_and!; try reflexivity.
  - intros Hroom. unfold accepted. by rewrite Hroom.
  - intros. by apply parse_hook_runner_script.
Qed.

Lemma constructed_script_on_disk_witness :
  exists sf bf af,
    let script := hook_runner_script (GOOS linux) (Name bf)
                                     "/hooks/pre-command" (Name af) in
    linux_wrapper = mkWrapper "/hooks/pre-command" (Some sf) (Some bf)
                              (Some af) /\
    Path linux_wrapper linux_world = Done (Name sf) linux_world /\
    disk linux_world !! Name sf
    = Some (mkInode (accepted linux (Name sf) script) true) /\
    (write_room linux (Name sf) = None ->
     disk linux_world !! Name sf = Some (mkInode script true)) /\
    (path_ok (dialect_of (GOOS linux)) (Name bf) = true ->
     path_ok (dialect_of (GOOS linux)) "/hooks/pre-command" = true ->
     path_ok (dialect_of (GOOS linux)) (Name af) = true ->
     parse_script (dialect_of (GOOS linux)) script
     = Some [ DumpEnv (Name bf);
              SourceHook "/hooks/pre-command";
              CaptureStatus BUILDKITE_LAST_HOOK_EXIT_STATUS;
              DumpEnv (Name af);
              ExitWith BUILDKITE_LAST_HOOK_EXIT_STATUS ]).
Proof.
  apply (constructed_script_on_disk
           linux "/hooks/pre-command" empty_world linux_world linux_wrapper
           "/hooks/pre-command").
  - vm_compute. reflexivity.
  - reflexivity.
Defined.

(** ** Wrappers with nil files *)

Lemma Close_nil_before (host : Host) (hp : string) (sf : File)
    (af : option File) (w : World) :
  Close host (mkWrapper hp (Some sf) None af) w = Panic.
Proof.
  unfold Close, file_name. cbn [scriptFile beforeEnvFile afterEnvFile].
  rewrite bind_ret.
  destruct (os_Remove_eq host (Name sf) w) as [e1 H1].
  by rewrite (bind_Done _ _ _ _ _ H1).
Qed.

Lemma Close_nil_after (host : Host) (hp : string) (sf bf : File)
    (w : World) :
  Close host (mkWrapper hp (Some sf) (Some bf) None) w = Panic.
Proof.
  unfold Close, file_name. cbn [scriptFile beforeEnvFile afterEnvFile].
  rewrite bind_ret.
  destruct (os_Remove_eq host (Name sf) w) as [e1 H1].
  rewrite (bind_Done _ _ _ _ _ H1), bind_ret.
  match type of H1 with _ = Done _ ?w1 =>
    destruct (os_Remove_eq host (Name bf) w1) as [e2 H2] end.
  by rewrite (bind_Done _ _ _ _ _ H2).
Qed.

Lemma ChangedEnvironment_nil_after (host : Host) (hp : string)
    (sf : option File) (bf : File) (w : World) :
  ChangedEnvironment host (mkWrapper hp sf (Some bf) None) w = Panic <->
  is_Some (read_text host w (Name bf)).
Proof.
  unfold ChangedEnvironment, file_name. cbn [beforeEnvFile afterEnvFile].
  rewrite bind_ret.
  rewrite (bind_Done _ _ _ _ _ (ioutil_ReadFile_eq host (Name bf) w)).
  destruct (read_text host w (Name bf)) as [tb|].
  - split; [by eauto|]. intros _. reflexivity.
  - split; [by intros [=]|by intros [? [=]]].
Qed.

(** X12.  The methods dereference the three files without a nil check.
    [Path] panics exactly when the script file is nil, [Close] exactly when
    one of the three files is nil, and [ChangedEnvironment] exactly when the
    before dump is nil, or it is set and readable and the after dump is
    nil. *)
Theorem methods_panic_on_nil_files
    (host : Host) (h : hookScriptWrapper) (w : World) :
  (Path h w = Panic <-> scriptFile h = None) /\
  (Close host h w = Panic <->
   scriptFile h = None \/ beforeEnvFile h = None \/ afterEnvFile h = None) /\
  (ChangedEnvironment host h w = Panic <->
   beforeEnvFile h = None \/
   exists bf, beforeEnvFile h = Some bf /\
              is_Some (read_text host w (Name bf)) /\
              afterEnvFile h = None).
Proof.
  destruct h as [hp sf bf af].
  cbn [scriptFile beforeEnvFile afterEnvFile]. split_and!.
  - unfold Path. cbn [scriptFile]. destruct sf; cbn; [|done].
    split; [by intros [=]|by intros [=]].
  - destruct sf as [sf|]; [|split; [by auto|done]].
    destruct bf as [bf|];
      [|split; [by auto|intros _; apply Close_nil_before]].
    destruct af as [af|];
      [|split; [by auto|intros _; apply Close_nil_after]].
    rewrite Close_eq. split; [by intros [=]|by intros [[=]|[[=]|[=]]]].
  - destruct bf as [bf|]; [|split; [by auto|done]].
    destruct af as [af|].
    + rewrite ChangedEnvironment_eq. split.
      * repeat case_match; by intros [=].
      * by intros [[=]|(? & _ & _ & [=])].
    + rewrite ChangedEnvironment_nil_after. split.
      * intros Hr. right. by exists bf.
      * by intros [[=]|(? & [= <-] & Hr & _)].
Qed.
